(** * ChatAI: the remote completion client and the chat cache

    A shallow embedding of [src/api/openrouter.py] (the OpenRouter client),
    [src/utils/cache.py] (the SQLite chat cache) and of the response handling of
    [main.py], with the properties the specification states about them.

    Conventions.
    - A Python [str] is a Rocq [string], the bytes of its UTF-8 encoding.
    - A Python [int] is a [Z]; a Python [float] is a binary64 [float].
    - A value that comes out of [resp.json()] is a [pyvalue].
    - A call that may raise returns a [result]: [Ok v] or [Raise e].  Only
      exceptions below [Exception] are modelled: these are the ones the
      [except Exception] handlers of the client catch.
    - [AppLogger] is not among the modelled sources; its calls return normally
      and leave every modelled value unchanged, so they do not appear.
    - The behaviour of the libraries the code calls ([requests], [sqlite3],
      the built-in [int], [float] and [format]) is modelled as far as the
      code uses it, next to the call it belongs to. *)

From Stdlib Require Import ZArith QArith List String Ascii Bool Lia.
From Stdlib Require Import Sorted Permutation Floats DecimalString DecimalPos.
From stdpp Require Import base option gmap strings.
Import ListNotations.

#[local] Open Scope string_scope.
#[local] Open Scope Z_scope.
#[local] Set Warnings "-register-all".

(** ** Exceptions and the result monad *)

Module Py.

Inductive exc_class : Type :=
| ValueError | TypeError | KeyError | IndexError | AttributeError
| OverflowError | ZeroDivisionError | RequestException | HTTPError
| JSONDecodeError | OperationalError.

(** An exception object: its class and [str(e)]. *)
Record exn : Type := Exn { exn_class : exc_class; exn_str : string }.

Inductive result (A : Type) : Type :=
| Ok (a : A)
| Raise (e : exn).
Arguments Ok {A} a.
Arguments Raise {A} e.

#[export] Instance result_ret : MRet result := fun A a => Ok a.

#[export] Instance result_bind : MBind result := fun A B k c =>
  match c with
  | Ok a => k a
  | Raise e => Raise e
  end.

(** [try: body / except Exception as e: handler e]. *)
Definition try_except {A : Type} (body : result A) (handler : exn -> result A)
  : result A :=
  match body with
  | Ok a => Ok a
  | Raise e => handler e
  end.

Definition returns {A : Type} (c : result A) : Prop := exists a, c = Ok a.

Fixpoint mapM {A B : Type} (f : A -> result B) (l : list A) : result (list B) :=
  match l with
  | [] => Ok []
  | a :: l' =>
      b ← f a; bs ← mapM f l'; Ok (b :: bs)
  end.

End Py.
Import Py.

(** ** Python values *)

Module Value.

(** What [json.loads] builds.  A dict keeps its insertion order and has
    string keys, each at most once. *)
Inductive pyvalue : Type :=
| PNone
| PBool (b : bool)
| PInt (n : Z)
| PFloat (x : float)
| PStr (s : string)
| PList (l : list pyvalue)
| PDict (d : list (string * pyvalue)).

Definition type_name (v : pyvalue) : string :=
  match v with
  | PNone => "NoneType"
  | PBool _ => "bool"
  | PInt _ => "int"
  | PFloat _ => "float"
  | PStr _ => "str"
  | PList _ => "list"
  | PDict _ => "dict"
  end.

Fixpoint dict_lookup (k : string) (d : list (string * pyvalue)) : option pyvalue :=
  match d with
  | [] => None
  | (k', v) :: d' => if String.eqb k k' then Some v else dict_lookup k d'
  end.

Definition string_of_Z (z : Z) : string := NilZero.string_of_int (Z.to_int z).

(** [repr(k)] of a string of printable ASCII characters other than quotes
    and backslashes. *)
Definition repr_str (k : string) : string := "'" +:+ k +:+ "'".

(** [v.get(k, dflt)]: only a dict has the method. *)
Definition py_get (v : pyvalue) (k : string) (dflt : pyvalue) : result pyvalue :=
  match v with
  | PDict d => Ok (default dflt (dict_lookup k d))
  | _ => Raise (Exn AttributeError
                 ("'" +:+ type_name v +:+ "' object has no attribute 'get'"))
  end.

(** [v[k]] for a string key [k]. *)
Definition py_getitem_str (v : pyvalue) (k : string) : result pyvalue :=
  match v with
  | PDict d =>
      match dict_lookup k d with
      | Some x => Ok x
      | None => Raise (Exn KeyError (repr_str k))
      end
  | PList _ => Raise (Exn TypeError "list indices must be integers or slices, not str")
  | PStr _ => Raise (Exn TypeError "string indices must be integers, not 'str'")
  | _ => Raise (Exn TypeError ("'" +:+ type_name v +:+ "' object is not subscriptable"))
  end.

Definition byte (c : ascii) : Z := Z.of_N (N_of_ascii c).

(** The payload of a continuation byte [10xxxxxx] of UTF-8. *)
Definition continuation (c : ascii) : option Z :=
  let b := byte c in
  if (128 <=? b) && (b <? 192) then Some (b - 128) else None.

(** The characters of a string, each as a string of length one: a byte
    stays with the continuation bytes that follow it. *)
Fixpoint chars (s : string) : list string :=
  match s with
  | EmptyString => []
  | String c s' =>
      let rest := chars s' in
      match s' with
      | String c' _ =>
          match continuation c', rest with
          | Some _, x :: l => String c x :: l
          | _, _ => String c EmptyString :: rest
          end
      | EmptyString => [String c EmptyString]
      end
  end.

(** [seq[i]] with Python's negative indices. *)
Definition index_seq {A : Type} (l : list A) (i : Z) : option A :=
  let n := Z.of_nat (List.length l) in
  let j := if i <? 0 then i + n else i in
  if (0 <=? j) && (j <? n) then nth_error l (Z.to_nat j) else None.

(** [v[i]] for an integer index [i]. *)
Definition py_getitem_int (v : pyvalue) (i : Z) : result pyvalue :=
  match v with
  | PList l =>
      match index_seq l i with
      | Some x => Ok x
      | None => Raise (Exn IndexError "list index out of range")
      end
  | PStr s =>
      match index_seq (chars s) i with
      | Some c => Ok (PStr c)
      | None => Raise (Exn IndexError "string index out of range")
      end
  | PDict _ => Raise (Exn KeyError (string_of_Z i))
  | _ => Raise (Exn TypeError ("'" +:+ type_name v +:+ "' object is not subscriptable"))
  end.

(** [for m in v]: the items the loop visits. *)
Definition py_iter (v : pyvalue) : result (list pyvalue) :=
  match v with
  | PList l => Ok l
  | PDict d => Ok (map (fun kv => PStr (fst kv)) d)
  | PStr s => Ok (map PStr (chars s))
  | _ => Raise (Exn TypeError ("'" +:+ type_name v +:+ "' object is not iterable"))
  end.

(** Is [sub] a substring of [s]? *)
Fixpoint is_substring (sub s : string) : bool :=
  String.prefix sub s
  || match s with
     | EmptyString => false
     | String _ s' => is_substring sub s'
     end.

Definition is_str (k : string) (v : pyvalue) : bool :=
  match v with
  | PStr s => String.eqb k s
  | _ => false
  end.

(** [k in v] for a string [k]. *)
Definition py_contains (k : string) (v : pyvalue) : result bool :=
  match v with
  | PDict d => Ok (bool_decide (is_Some (dict_lookup k d)))
  | PList l => Ok (existsb (is_str k) l)
  | PStr s => Ok (is_substring k s)
  | _ => Raise (Exn TypeError
                 ("argument of type '" +:+ type_name v +:+ "' is not iterable"))
  end.

End Value.
Import Value.

(** ** Numbers: [int], [float], their literals and the [.2f] format *)

Module Number.

(** [float(n)] for an [int]: the nearest binary64 (ties to even), or
    [OverflowError] beyond the largest finite float. *)
Definition float_of_Z (n : Z) : result float :=
  match binary_normalize prec emax n 0 false with
  | S754_infinity _ => Raise (Exn OverflowError "int too large to convert to float")
  | sf => Ok (SF2Prim sf)
  end.

(** [bool] is a subclass of [int]. *)
Definition as_int (v : pyvalue) : option Z :=
  match v with
  | PInt n => Some n
  | PBool b => Some (if b then 1 else 0)
  | _ => None
  end.

Definition sub_type_error (a b : pyvalue) : exn :=
  Exn TypeError ("unsupported operand type(s) for -: '" +:+ type_name a
                 +:+ "' and '" +:+ type_name b +:+ "'").

(** [a - b]. *)
Definition py_sub (a b : pyvalue) : result pyvalue :=
  match a, b with
  | PFloat x, PFloat y => Ok (PFloat (x - y))
  | PFloat x, _ =>
      match as_int b with
      | Some n => y ← float_of_Z n; Ok (PFloat (x - y))
      | None => Raise (sub_type_error a b)
      end
  | _, PFloat y =>
      match as_int a with
      | Some n => x ← float_of_Z n; Ok (PFloat (x - y))
      | None => Raise (sub_type_error a b)
      end
  | _, _ =>
      match as_int a, as_int b with
      | Some m, Some n => Ok (PInt (m - n))
      | _, _ => Raise (sub_type_error a b)
      end
  end.

(** [num / den] rounded to the nearest integer, ties to even
    ([0 <= num], [0 < den]). *)
Definition round_half_even (num den : Z) : Z :=
  let q := num / den in
  match 2 * (num mod den) ?= den with
  | Lt => q
  | Eq => if Z.even q then q else q + 1
  | Gt => q + 1
  end.

(** The magnitude [m * 2^e] in hundredths, correctly rounded. *)
Definition hundredths (m : positive) (e : Z) : Z :=
  if 0 <=? e then Z.pos m * 2 ^ e * 100
  else round_half_even (Z.pos m * 100) (2 ^ (- e)).

Definition digit (d : Z) : string :=
  String (ascii_of_nat (48 + Z.to_nat d)) EmptyString.

(** [k] hundredths printed in fixed notation with two decimals. *)
Definition fixed2 (neg : bool) (k : Z) : string :=
  (if neg then "-" else "") +:+ string_of_Z (k / 100) +:+ "."
  +:+ digit (k / 10 mod 10) +:+ digit (k mod 10).

(** [format(x, '.2f')] for a float. *)
Definition format_2f (x : float) : string :=
  match Prim2SF x with
  | S754_zero s => fixed2 s 0
  | S754_infinity s => if s then "-inf" else "inf"
  | S754_nan => "nan"
  | S754_finite s m e => fixed2 s (hundredths m e)
  end.

(** The float a number is formatted as; other values have no [f] format. *)
Definition number_as_float (v : pyvalue) : result float :=
  match v with
  | PFloat x => Ok x
  | PInt n => float_of_Z n
  | PBool b => Ok (if b then 1 else 0)%float
  | PStr _ =>
      Raise (Exn ValueError "Unknown format code 'f' for object of type 'str'")
  | _ =>
      Raise (Exn TypeError ("unsupported format string passed to "
                            +:+ type_name v +:+ ".__format__"))
  end.

(** [format(v, '.2f')]: an [int] is converted to [float] first. *)
Definition py_format_2f (v : pyvalue) : result string :=
  x ← number_as_float v; Ok (format_2f x).

Definition is_finite (x : float) : bool :=
  match Prim2SF x with
  | S754_zero _ | S754_finite _ _ _ => true
  | _ => false
  end.

(** *** Literals accepted by [int(s)] and [float(s)] *)

(** [Py_ISSPACE]: the white space [int] and [float] skip around a literal. *)
Definition is_space (c : ascii) : bool :=
  let n := nat_of_ascii c in
  ((9 <=? n) && (n <=? 13) || (n =? 32))%nat.

Definition digit_of (c : ascii) : option Z :=
  let n := nat_of_ascii c in
  if ((48 <=? n) && (n <=? 57))%nat then Some (Z.of_nat n - 48) else None.

Fixpoint lstrip (s : string) : string :=
  match s with
  | String c s' => if is_space c then lstrip s' else s
  | EmptyString => s
  end.

Fixpoint string_rev_app (s acc : string) : string :=
  match s with
  | String c s' => string_rev_app s' (String c acc)
  | EmptyString => acc
  end.

Definition string_rev (s : string) : string := string_rev_app s EmptyString.

(** [s] without the white space at its two ends. *)
Definition strip (s : string) : string :=
  string_rev (lstrip (string_rev (lstrip s))).

(** [s.lower()] on ASCII letters. *)
Definition lower_ascii (c : ascii) : ascii :=
  let n := nat_of_ascii c in
  if ((65 <=? n) && (n <=? 90))%nat then ascii_of_nat (n + 32) else c.

Fixpoint lower (s : string) : string :=
  match s with
  | String c s' => String (lower_ascii c) (lower s')
  | EmptyString => EmptyString
  end.

(** **** Characters outside ASCII

    [int] and [float] first turn every white-space character of their
    argument into a space and every decimal digit into its ASCII digit
    ([_PyUnicode_TransformDecimalAndSpaceToASCII]). *)

Fixpoint is_ascii (s : string) : bool :=
  match s with
  | String c s' => (byte c <? 128) && is_ascii s'
  | EmptyString => true
  end.

(** The code point at the head of UTF-8 text and the text after it; [None]
    where the bytes are not the encoding of a character (overlong forms,
    surrogates and values above U+10FFFF included). *)
Definition utf8_head (s : string) : option (Z * string) :=
  match s with
  | EmptyString => None
  | String c0 s1 =>
      let b0 := byte c0 in
      if b0 <? 128 then Some (b0, s1)
      else if b0 <? 194 then None
      else if b0 <? 224 then
        match s1 with
        | String c1 s2 =>
            match continuation c1 with
            | Some x1 => Some ((b0 - 192) * 64 + x1, s2)
            | None => None
            end
        | _ => None
        end
      else if b0 <? 240 then
        match s1 with
        | String c1 (String c2 s3) =>
            match continuation c1, continuation c2 with
            | Some x1, Some x2 =>
                let cp := ((b0 - 224) * 64 + x1) * 64 + x2 in
                if (cp <? 2048) || ((55296 <=? cp) && (cp <=? 57343)) then None
                else Some (cp, s3)
            | _, _ => None
            end
        | _ => None
        end
      else if b0 <? 245 then
        match s1 with
        | String c1 (String c2 (String c3 s4)) =>
            match continuation c1, continuation c2, continuation c3 with
            | Some x1, Some x2, Some x3 =>
                let cp := (((b0 - 240) * 64 + x1) * 64 + x2) * 64 + x3 in
                if (cp <? 65536) || (1114111 <? cp) then None
                else Some (cp, s4)
            | _, _, _ => None
            end
        | _ => None
        end
      else None
  end.

(** [Py_UNICODE_ISSPACE] above U+007E. *)
Definition unicode_space (cp : Z) : bool :=
  existsb (Z.eqb cp) [133; 160; 5760; 8232; 8233; 8239; 8287; 12288]
  || (8192 <=? cp) && (cp <=? 8202).

(** The digit zero of every script above ASCII that has decimal digits, in
    version 14.0 of the Unicode character database (the one of CPython
    3.11): the digits one to nine follow each of them. *)
Definition decimal_zeros : list Z :=
  [ 1632; 1776; 1984; 2406; 2534; 2662; 2790; 2918; 3046; 3174; 3302; 3430;
    3558; 3664; 3792; 3872; 4160; 4240; 6112; 6160; 6470; 6608; 6784; 6800;
    6992; 7088; 7232; 7248; 42528; 43216; 43264; 43472; 43504; 43600; 44016;
    65296; 66720; 68912; 69734; 69872; 69942; 70096; 70384; 70736; 70864;
    71248; 71360; 71472; 71904; 72016; 72784; 73040; 73120; 92768; 92864;
    93008; 120782; 120792; 120802; 120812; 120822; 123200; 123632; 125264;
    130032 ].

(** [Py_UNICODE_TODECIMAL] above U+007E. *)
Definition unicode_decimal (cp : Z) : option Z :=
  match List.find (fun z => (z <=? cp) && (cp <? z + 10)) decimal_zeros with
  | Some z => Some (cp - z)
  | None => None
  end.

Definition digit_char (d : Z) : ascii := ascii_of_nat (48 + Z.to_nat d).

(** The loop of the transformation over a string with a character outside
    ASCII: characters below U+007F are kept; the first character that is
    neither white space nor a decimal digit is replaced by a question mark
    and ends the result.  Bytes that encode no character stand for such a
    character.  [fuel] bounds the number of characters. *)
Fixpoint transform_chars (fuel : nat) (s : string) : string :=
  match fuel, s with
  | S fuel', String c s' =>
      if byte c <? 127 then String c (transform_chars fuel' s')
      else
        match utf8_head s with
        | Some (cp, rest) =>
            if unicode_space cp then String " " (transform_chars fuel' rest)
            else
              match unicode_decimal cp with
              | Some d => String (digit_char d) (transform_chars fuel' rest)
              | None => "?"
              end
        | None => "?"
        end
  | _, _ => EmptyString
  end.

(** An ASCII string is returned as it is. *)
Definition TransformDecimalAndSpaceToASCII (s : string) : string :=
  if is_ascii s then s else transform_chars (String.length s) s.

(** **** Digits *)

(** After a first digit: more digits, each optionally preceded by one
    underscore.  Returns the value, the number of digits and what is left. *)
Fixpoint digitpart_rest (s : string) (acc : Z) (n : Z) : Z * Z * string :=
  match s with
  | String c s' =>
      match digit_of c with
      | Some d => digitpart_rest s' (10 * acc + d) (n + 1)
      | None =>
          if Ascii.eqb c "_" then
            match s' with
            | String c' s'' =>
                match digit_of c' with
                | Some d => digitpart_rest s'' (10 * acc + d) (n + 1)
                | None => (acc, n, s)
                end
            | EmptyString => (acc, n, s)
            end
          else (acc, n, s)
      end
  | EmptyString => (acc, n, s)
  end.

Definition digitpart (s : string) : option (Z * Z * string) :=
  match s with
  | String c s' =>
      match digit_of c with
      | Some d => Some (digitpart_rest s' d 1)
      | None => None
      end
  | EmptyString => None
  end.

Definition sign (s : string) : bool * string :=
  match s with
  | String "-" s' => (true, s')
  | String "+" s' => (false, s')
  | _ => (false, s)
  end.

(** The scan of [int] over the digits and underscores at the head of [s]:
    the value and the number of the digits, and what follows them; [None]
    when an underscore follows another or comes last.  [prev] tells that the
    character before was an underscore. *)
Fixpoint scan_digits (s : string) (prev : bool) (acc n : Z)
  : option (Z * Z * string) :=
  match s with
  | String c s' =>
      match digit_of c with
      | Some d => scan_digits s' false (10 * acc + d) (n + 1)
      | None =>
          if Ascii.eqb c "_" then
            if prev then None else scan_digits s' true acc n
          else if prev then None else Some (acc, n, s)
      end
  | EmptyString => if prev then None else Some (acc, n, s)
  end.

(** The first [n] characters of UTF-8 text. *)
Fixpoint first_chars (n : nat) (s : string) : string :=
  match s with
  | String c s' =>
      match continuation c, n with
      | Some _, _ => String c (first_chars n s')
      | None, S n' => String c (first_chars n' s')
      | None, O => EmptyString
      end
  | EmptyString => EmptyString
  end.

(** [sys.get_int_max_str_digits()], as the interpreter starts. *)
Definition int_max_str_digits : Z := 4300.

Definition int_digits_error (n : Z) : exn :=
  Exn ValueError
      ("Exceeds the limit (4300 digits) for integer string conversion: value has "
       +:+ string_of_Z n
       +:+ " digits; use sys.set_int_max_str_digits() to increase the limit").

Section Literals.

(** [repr(s)] of a string is left to the interpreter: it escapes the
    characters its character database does not list as printable. *)
Variable repr : string -> string.

(** The message shows at most 200 characters of the argument. *)
Definition int_literal_error (s : string) : exn :=
  Exn ValueError ("invalid literal for int() with base 10: "
                  +:+ first_chars 200 (repr s)).

(** The literal [t] of [int(s)] after its white space and sign: digits with
    single underscores between them, then white space.  The digits are
    counted before they are converted, and more than [int_max_str_digits]
    are refused. *)
Definition int_digits (s : string) (neg : bool) (t : string) : result Z :=
  match t with
  | String "_" _ => Raise (int_literal_error s)
  | _ =>
      match scan_digits t false 0 0 with
      | None => Raise (int_literal_error s)
      | Some (v, n, rest) =>
          if int_max_str_digits <? n then Raise (int_digits_error n)
          else if n =? 0 then Raise (int_literal_error s)
          else
            match lstrip rest with
            | EmptyString => Ok (if neg then - v else v)
            | _ => Raise (int_literal_error s)
            end
      end
  end.

(** [int(s)]. *)
Definition py_int (s : string) : result Z :=
  let (neg, t) := sign (lstrip (TransformDecimalAndSpaceToASCII s)) in
  int_digits s neg t.

(** [num / den] as a binary64, correctly rounded: the quotient is taken with
    64 bits beyond the size of [den] and a sticky bit. *)
Definition float_of_ratio (neg : bool) (num den : Z) : float :=
  if num =? 0 then (if neg then neg_zero else zero)
  else
    let k := Z.log2 den + 64 in
    let q := (num * 2 ^ k) / den in
    let sticky := if (num * 2 ^ k) mod den =? 0 then 0 else 1 in
    let m := 2 * q + sticky in
    SF2Prim (binary_normalize prec emax (if neg then - m else m) (- k - 1) neg).

(** The value [m * 10^e10] as a binary64. *)
Definition float_of_decimal (neg : bool) (m e10 : Z) : float :=
  if 0 <=? e10 then float_of_ratio neg (m * 10 ^ e10) 1
  else float_of_ratio neg m (10 ^ (- e10)).

(** The optional exponent of a float literal; [None] when ill-formed. *)
Definition exponent (s : string) : option Z :=
  match s with
  | EmptyString => Some 0
  | String c s' =>
      if Ascii.eqb (lower_ascii c) "e" then
        let (neg, t) := sign s' in
        match digitpart t with
        | Some (v, _, EmptyString) => Some (if neg then - v else v)
        | _ => None
        end
      else None
  end.

Definition float_value_error (s : string) : exn :=
  Exn ValueError ("could not convert string to float: " +:+ repr s).

(** [float(s)]. *)
Definition py_float (s : string) : result float :=
  let (neg, t) := sign (strip (TransformDecimalAndSpaceToASCII s)) in
  let l := lower t in
  if String.eqb l "inf" || String.eqb l "infinity" then
    Ok (if neg then neg_infinity else infinity)
  else if String.eqb l "nan" then Ok nan
  else
    let '(ip, has_int, t1) :=
      match digitpart t with
      | Some (v, _, r) => (v, true, r)
      | None => (0, false, t)
      end in
    let '(fp, nfrac, has_frac, t2) :=
      match t1 with
      | String "." r =>
          match digitpart r with
          | Some (v, n, r') => (v, n, true, r')
          | None => (0, 0, false, r)
          end
      | _ => (0, 0, false, t1)
      end in
    if has_int || has_frac then
      match exponent t2 with
      | Some e => Ok (float_of_decimal neg (ip * 10 ^ nfrac + fp) (e - nfrac))
      | None => Raise (float_value_error s)
      end
    else Raise (float_value_error s).

End Literals.

End Number.
Import Number.

(** ** The HTTP library, as far as the client uses it *)

Module Requests.

(** A response: its status line and what [resp.json()] gives, the decoded
    body or the decoding error. *)
Record Response : Type := {
  status_code : Z;
  reason : string;
  url : string;
  json : result pyvalue
}.

(** [resp.raise_for_status()]: an [HTTPError] for a 4xx or 5xx status,
    nothing for any other. *)
Definition raise_for_status (resp : Response) : result unit :=
  let code := status_code resp in
  if (400 <=? code) && (code <? 500) then
    Raise (Exn HTTPError (string_of_Z code +:+ " Client Error: " +:+ reason resp
                          +:+ " for url: " +:+ url resp))
  else if (500 <=? code) && (code <? 600) then
    Raise (Exn HTTPError (string_of_Z code +:+ " Server Error: " +:+ reason resp
                          +:+ " for url: " +:+ url resp))
  else Ok tt.

(** The remote side: what [requests.get(url, headers=...)] and
    [requests.post(url, headers=..., json=...)] answer, a response or an
    exception of the transport. *)
Record network : Type := {
  get : string -> gmap string string -> result Response;
  post : string -> gmap string string -> pyvalue -> result Response
}.

End Requests.
Import Requests.

(** ** [api/openrouter.py] *)

Module OpenRouter.

Definition DEFAULT_API_KEY : string := "your-api-key-here".
Definition DEFAULT_BASE_URL : string := "https://openrouter.ai/api/v1".
Definition DEFAULT_DEBUG : bool := false.
Definition DEFAULT_LOG_LEVEL : string := "INFO".
Definition DEFAULT_MAX_TOKENS : Z := 1000.
Definition DEFAULT_TEMPERATURE : float := 0x1.6666666666666p-1.  (* 0.7 *)

(** [str(DEFAULT_DEBUG)], [str(DEFAULT_MAX_TOKENS)], [str(DEFAULT_TEMPERATURE)]. *)
Definition str_bool (b : bool) : string := if b then "True" else "False".
Definition str_DEFAULT_TEMPERATURE : string := "0.7".

(** [os.getenv(name, dflt)] over the process environment. *)
Definition getenv (env : gmap string string) (name dflt : string) : string :=
  default dflt (env !! name).

Record OpenRouterClient : Type := {
  api_key : string;
  base_url : string;
  debug : bool;
  log_level : string;
  max_tokens : Z;
  temperature : float;
  headers : gmap string string;
  available_models : list pyvalue
}.

Definition model (id name : string) : pyvalue :=
  PDict [("id", PStr id); ("name", PStr name)].

Definition fallback_models : list pyvalue :=
  [ model "deepseek-coder" "DeepSeek";
    model "claude-3-sonnet" "Claude 3.5 Sonnet";
    model "gpt-3.5-turbo" "GPT-3.5 Turbo" ].

(** [{'id': m['id'], 'name': m['name']}]. *)
Definition model_entry (m : pyvalue) : result pyvalue :=
  id ← py_getitem_str m "id";
  name ← py_getitem_str m "name";
  Ok (PDict [("id", id); ("name", name)]).

(** The [try] block of [get_models]. *)
Definition fetch_models (net : network) (self : OpenRouterClient)
  : result (list pyvalue) :=
  resp ← get net (base_url self +:+ "/models") (headers self);
  _ ← raise_for_status resp;
  body ← json resp;
  data ← py_get body "data" (PList []);
  items ← py_iter data;
  mapM model_entry items.

Definition get_models (net : network) (self : OpenRouterClient)
  : result (list pyvalue) :=
  try_except (fetch_models net self) (fun _ => Ok fallback_models).

Definition payload (self : OpenRouterClient) (message model : string) : pyvalue :=
  PDict [ ("model", PStr model);
          ("messages", PList [PDict [("role", PStr "user");
                                     ("content", PStr message)]]);
          ("max_tokens", PInt (max_tokens self));
          ("temperature", PFloat (temperature self)) ].

(** The [try] block of [send_message]. *)
Definition post_message (net : network) (self : OpenRouterClient)
    (message model : string) : result pyvalue :=
  resp ← post net (base_url self +:+ "/chat/completions") (headers self)
              (payload self message model);
  _ ← raise_for_status resp;
  json resp.

Definition send_message (net : network) (self : OpenRouterClient)
    (message model : string) : result pyvalue :=
  try_except (post_message net self message model)
             (fun e => Ok (PDict [("error", PStr (exn_str e))])).

(** The [try] block of [get_balance]. *)
Definition fetch_balance (net : network) (self : OpenRouterClient) : result string :=
  resp ← get net (base_url self +:+ "/credits") (headers self);
  _ ← raise_for_status resp;
  body ← json resp;
  data ← py_get body "data" (PDict []);
  credits ← py_get data "total_credits" (PInt 0);
  usage ← py_get data "total_usage" (PInt 0);
  balance ← py_sub credits usage;
  text ← py_format_2f balance;
  Ok ("$" +:+ text).

Definition balance_failure : string := "Ошибка".

Definition get_balance (net : network) (self : OpenRouterClient) : result string :=
  try_except (fetch_balance net self) (fun _ => Ok balance_failure).

Definition api_key_error : exn := Exn ValueError "OpenRouter API key not found".

(** [OpenRouterClient()] in the process environment [env]; [repr] is the
    interpreter's, for the messages of [int] and [float]. *)
Definition init (repr : string -> string) (env : gmap string string)
    (net : network) : result OpenRouterClient :=
  let key := getenv env "OPENROUTER_API_KEY" DEFAULT_API_KEY in
  let base := getenv env "BASE_URL" DEFAULT_BASE_URL in
  let dbg := lower (getenv env "DEBUG" (str_bool DEFAULT_DEBUG)) in
  let level := getenv env "LOG_LEVEL" DEFAULT_LOG_LEVEL in
  tokens ← py_int repr (getenv env "MAX_TOKENS" (string_of_Z DEFAULT_MAX_TOKENS));
  temp ← py_float repr (getenv env "TEMPERATURE" str_DEFAULT_TEMPERATURE);
  if String.eqb key "" then Raise api_key_error
  else
    let self :=
      {| api_key := key; base_url := base;
         debug := existsb (String.eqb dbg) ["1"; "true"; "yes"];
         log_level := level; max_tokens := tokens; temperature := temp;
         headers := <["Authorization" := "Bearer " +:+ key]>
                      (<["Content-Type" := "application/json"]> ∅);
         available_models := [] |} in
    models ← get_models net self;
    Ok {| api_key := key; base_url := base; debug := debug self;
          log_level := level; max_tokens := tokens; temperature := temp;
          headers := headers self; available_models := models |}.

End OpenRouter.
Import OpenRouter.

(** ** [main.py]: what [send_message_click] reads from the response *)

Module App.

Section Handler.

(** [str(v)] of a value that is not a string is left to the interpreter. *)
Variable repr : pyvalue -> string.

Definition py_str (v : pyvalue) : string :=
  match v with
  | PStr s => s
  | _ => repr v
  end.

(** Lines 141-147: the pair [(response_text, tokens_used)]. *)
Definition send_message_click_extract (response : pyvalue)
  : result (pyvalue * pyvalue) :=
  has_error ← py_contains "error" response;
  if has_error : bool then
    err ← py_getitem_str response "error";
    Ok (PStr ("Ошибка: " +:+ py_str err), PInt 0)
  else
    choices ← py_getitem_str response "choices";
    first ← py_getitem_int choices 0;
    message ← py_getitem_str first "message";
    content ← py_getitem_str message "content";
    usage ← py_get response "usage" (PDict []);
    tokens ← py_get usage "total_tokens" (PInt 0);
    Ok (content, tokens).

End Handler.

End App.
Import App.

(** ** [utils/cache.py]: the SQLite store *)

Module Cache.

(** The clock of the database engine, in UTC. *)
Record datetime : Type := {
  year : Z; month : Z; day : Z; hour : Z; minute : Z; second : Z
}.

Definition pad2 (n : Z) : string := digit (n / 10 mod 10) +:+ digit (n mod 10).
Definition pad4 (n : Z) : string := pad2 (n / 100 mod 100) +:+ pad2 (n mod 100).

(** SQL [CURRENT_TIMESTAMP]: the text ["YYYY-MM-DD HH:MM:SS"]. *)
Definition CURRENT_TIMESTAMP (now : datetime) : string :=
  pad4 (year now) +:+ "-" +:+ pad2 (month now) +:+ "-" +:+ pad2 (day now)
  +:+ " " +:+ pad2 (hour now) +:+ ":" +:+ pad2 (minute now) +:+ ":"
  +:+ pad2 (second now).

(** A row of [messages]. *)
Record message : Type := {
  m_id : Z;
  m_model : string;
  m_user_message : string;
  m_ai_response : string;
  m_timestamp : string;
  m_tokens_used : Z
}.

(** A row of [analytics_messages]. *)
Record analytics : Type := {
  a_id : Z;
  a_timestamp : string;
  a_model : string;
  a_message_length : Z;
  a_response_time : option float;
  a_tokens_used : Z
}.

(** A table with an [INTEGER PRIMARY KEY AUTOINCREMENT]: its rows in rowid
    order and its entry in [sqlite_sequence], the largest rowid handed out so
    far (0 before the first insertion). *)
Record table (row : Type) : Type := {
  rows : list row;
  sequence : Z
}.
Arguments rows {row} t.
Arguments sequence {row} t.

Record database : Type := {
  messages : table message;
  analytics_messages : table analytics
}.

Definition empty_table {row : Type} : table row := {| rows := []; sequence := 0 |}.

Definition empty_database : database :=
  {| messages := empty_table; analytics_messages := empty_table |}.

(** [CREATE TABLE IF NOT EXISTS] twice: a new file gets two empty tables, an
    existing one is left as it is. *)
Definition create_tables (file : option database) : database :=
  default empty_database file.

Definition MAX_ROWID : Z := 9223372036854775807.

(** *** Values bound to a statement *)

Definition MIN_INT64 : Z := -9223372036854775808.
Definition MAX_INT64 : Z := 9223372036854775807.

Definition integer_overflow : exn :=
  Exn OverflowError "Python int too large to convert to SQLite INTEGER".

Definition int64 (n : Z) : bool := (MIN_INT64 <=? n) && (n <=? MAX_INT64).

(** A Python [int] bound to a [?]: the driver passes a 64-bit integer, and
    raises before the statement runs when the value does not fit. *)
Definition bind_int (n : Z) : result Z :=
  if int64 n then Ok n else Raise integer_overflow.

(** A Python [float] written to a REAL column, as it is read back: NaN is
    stored as NULL, and a zero loses its sign. *)
Definition stored_real (x : float) : option float :=
  match Prim2SF x with
  | S754_nan => None
  | S754_zero _ => Some zero
  | _ => Some x
  end.

Definition max_rowid (ids : list Z) : option Z :=
  match ids with
  | [] => None
  | i :: ids' => Some (fold_left Z.max ids' i)
  end.

Definition database_full : exn := Exn OperationalError "database or disk is full".

(** The rowid an AUTOINCREMENT table gives to a new row: one more than the
    largest rowid in the table and than the recorded sequence; the insertion
    fails once the largest rowid has been used. *)
Definition new_rowid (ids : list Z) (seq : Z) : result Z :=
  let v := match max_rowid ids with
           | None => Some 1
           | Some i => if MAX_ROWID <=? i then None else Some (i + 1)
           end in
  match v with
  | Some v => if seq =? MAX_ROWID then Raise database_full
              else Ok (Z.max v (seq + 1))
  | None => Raise database_full
  end.

(** The row an insertion into [messages] writes: the rowid is the table's,
    the timestamp the engine's [CURRENT_TIMESTAMP], the rest the caller's.
    The values are bound before the statement runs. *)
Definition new_message (db : database) (now : datetime)
    (model user_message ai_response : string) (tokens_used : Z) : result message :=
  tokens ← bind_int tokens_used;
  i ← new_rowid (map m_id (rows (messages db))) (sequence (messages db));
  Ok {| m_id := i; m_model := model; m_user_message := user_message;
        m_ai_response := ai_response;
        m_timestamp := CURRENT_TIMESTAMP now;
        m_tokens_used := tokens |}.

Definition append_message (db : database) (r : message) : database :=
  {| messages := {| rows := rows (messages db) ++ [r]; sequence := m_id r |};
     analytics_messages := analytics_messages db |}.

(** [INSERT INTO messages (model, user_message, ai_response, timestamp,
    tokens_used) VALUES (?, ?, ?, CURRENT_TIMESTAMP, ?)] and [commit]. *)
Definition save_message (db : database) (now : datetime)
    (model user_message ai_response : string) (tokens_used : Z) : result database :=
  r ← new_message db now model user_message ai_response tokens_used;
  Ok (append_message db r).

(** A stable insertion sort: [x] is put in front of the first row it may
    precede. *)
Fixpoint insert_by {A : Type} (before : A -> A -> bool) (x : A) (l : list A) : list A :=
  match l with
  | [] => [x]
  | y :: l' => if before x y then x :: l else y :: insert_by before x l'
  end.

Definition sort_by {A : Type} (before : A -> A -> bool) (l : list A) : list A :=
  fold_right (insert_by before) [] l.

(** [ORDER BY timestamp DESC] on a TEXT column: byte-wise comparison.  Rows
    with equal timestamps stay in table order. *)
Definition newer_first (x y : message) : bool :=
  String.leb (m_timestamp y) (m_timestamp x).

(** [LIMIT n]: a negative [n] means no limit. *)
Definition sql_limit {A : Type} (n : Z) (l : list A) : list A :=
  if n <? 0 then l else firstn (Z.to_nat n) l.

Definition default_limit : Z := 50.

(** [SELECT * FROM messages ORDER BY timestamp DESC LIMIT n], for the SQL
    integer [n]. *)
Definition select_messages (db : database) (n : Z) : list message :=
  sql_limit n (sort_by newer_first (rows (messages db))).

(** [get_chat_history(limit)]: [limit] is bound to the [?] of the statement,
    which then runs; [fetchall] gives its rows. *)
Definition get_chat_history (db : database) (limit : Z) : result (list message) :=
  n ← bind_int limit;
  Ok (select_messages db n).

(** [INSERT INTO analytics_messages (...) VALUES (?, ?, ?, ?, ?)] and [commit]. *)
Definition save_analytics (db : database) (timestamp model : string)
    (message_length : Z) (response_time : float) (tokens_used : Z) : result database :=
  let t := analytics_messages db in
  len ← bind_int message_length;
  tokens ← bind_int tokens_used;
  i ← new_rowid (map a_id (rows t)) (sequence t);
  let r := {| a_id := i; a_timestamp := timestamp; a_model := model;
              a_message_length := len;
              a_response_time := stored_real response_time;
              a_tokens_used := tokens |} in
  Ok {| messages := messages db;
        analytics_messages := {| rows := rows t ++ [r]; sequence := i |} |}.

Definition older_first (x y : analytics) : bool :=
  String.leb (a_timestamp x) (a_timestamp y).

(** [SELECT timestamp, model, message_length, response_time, tokens_used FROM
    analytics_messages ORDER BY timestamp ASC]. *)
Definition get_analytics_history (db : database)
  : list (string * string * Z * option float * Z) :=
  map (fun r => (a_timestamp r, a_model r, a_message_length r,
                 a_response_time r, a_tokens_used r))
      (sort_by older_first (rows (analytics_messages db))).

(** [DELETE FROM messages] and [commit]: the sequence is kept. *)
Definition clear_history (db : database) : database :=
  {| messages := {| rows := []; sequence := sequence (messages db) |};
     analytics_messages := analytics_messages db |}.

(** *** Histories of the store

    What a caller can do to the store, with the arguments it passes; the time
    of each step is read by the engine, not passed in. *)
Inductive command : Type :=
| SaveMessage (model user_message ai_response : string) (tokens_used : Z)
| SaveAnalytics (timestamp model : string) (message_length : Z)
    (response_time : float) (tokens_used : Z)
| ClearHistory.

(** One command at engine time [now]: the next state and the rows by which
    [messages] grew.  A call that raises does so in the caller and leaves the
    tables as they were. *)
Definition step (db : database) (now : datetime) (c : command)
  : database * list message :=
  match c with
  | SaveMessage model user_message ai_response tokens_used =>
      match save_message db now model user_message ai_response tokens_used with
      | Ok db' =>
          (db', skipn (length (rows (messages db))) (rows (messages db')))
      | Raise _ => (db, [])
      end
  | SaveAnalytics timestamp model message_length response_time tokens_used =>
      match save_analytics db timestamp model message_length response_time
              tokens_used with
      | Ok db' => (db', [])
      | Raise _ => (db, [])
      end
  | ClearHistory => (clear_history db, [])
  end.

(** A history: commands with the engine time of each.  [run] gives the final
    state and the rows of [messages] written, oldest first. *)
Fixpoint run (db : database) (history : list (datetime * command))
  : database * list message :=
  match history with
  | [] => (db, [])
  | (now, c) :: history' =>
      let (db1, written) := step db now c in
      let (db2, written') := run db1 history' in
      (db2, (written ++ written')%list)
  end.

End Cache.
Import Cache.

(** ** The analytics aggregator

    [utils/analytics.py] is not among the sources at hand; its statistics are
    modelled from section 4.3 of the specification, over the rows the store
    returns. *)

Module Analytics.

(** [a / b] on exact numbers: dividing by zero raises. *)
Definition py_div (a b : Q) : result Q :=
  if Qeq_bool b 0 then Raise (Exn ZeroDivisionError "division by zero")
  else Ok (a / b)%Q.

Section Statistics.

(** Modelled from the spec: the "elapsed wall-clock span between first and
    last recorded timestamp", in seconds.  How the aggregator reads a stored
    timestamp is part of the missing module, so the span is a parameter. *)
Variable elapsed_seconds : string -> string -> Q.

(** Modelled from the spec: the four fields [get_statistics] returns
    (section 6). *)
Record statistics : Type := {
  total_messages : Z;
  total_tokens : Z;
  tokens_per_message : Q;
  messages_per_minute : Q
}.

(** A row as [get_analytics_history] returns it. *)
Definition sample : Type := (string * string * Z * option float * Z)%type.

Definition sample_timestamp (s : sample) : string :=
  match s with (t, _, _, _, _) => t end.

Definition sample_tokens (s : sample) : Z :=
  match s with (_, _, _, _, n) => n end.

(** Modelled from the spec: "total tokens consumed (sum)". *)
Definition sum_tokens (history : list sample) : Z :=
  fold_right (fun s acc => sample_tokens s + acc) 0 history.

(** Modelled from the spec: "average tokens per message (0 when count is 0,
    must not divide by zero)". *)
Definition average_tokens (history : list sample) : result Q :=
  match history with
  | [] => Ok 0%Q
  | _ => py_div (inject_Z (sum_tokens history))
                (inject_Z (Z.of_nat (length history)))
  end.

(** Modelled from the spec: "count divided by elapsed wall-clock span between
    first and last recorded timestamp, in minutes; 0 [...] when fewer than 2
    records or the span is zero - must not divide by zero". *)
Definition rate_per_minute (history : list sample) : result Q :=
  match history with
  | first :: _ :: _ =>
      let span := (elapsed_seconds (sample_timestamp first)
                     (sample_timestamp (List.last history first)) / 60)%Q in
      if Qeq_bool span 0 then Ok 0%Q
      else py_div (inject_Z (Z.of_nat (length history))) span
  | _ => Ok 0%Q
  end.

(** Modelled from the spec: [get_statistics()] "consumes the full analytics
    history" and computes the four fields. *)
Definition get_statistics (db : database) : result statistics :=
  let history := get_analytics_history db in
  average ← average_tokens history;
  rate ← rate_per_minute history;
  Ok {| total_messages := Z.of_nat (length history);
        total_tokens := sum_tokens history;
        tokens_per_message := average;
        messages_per_minute := rate |}.

End Statistics.

End Analytics.
Import Analytics.

(** ** Concrete clients, networks and stores used in the examples *)

Module Examples.

Definition client : OpenRouterClient :=
  {| api_key := "sk-or-test"; base_url := DEFAULT_BASE_URL; debug := false;
     log_level := DEFAULT_LOG_LEVEL; max_tokens := DEFAULT_MAX_TOKENS;
     temperature := DEFAULT_TEMPERATURE;
     headers := <["Authorization" := "Bearer sk-or-test"]>
                  (<["Content-Type" := "application/json"]> ∅);
     available_models := fallback_models |}.

(** A remote side that answers every request with one status and body. *)
Definition answering (code : Z) (why : string) (body : result pyvalue) : network :=
  let resp u := {| status_code := code; reason := why; url := u; json := body |} in
  {| get := fun u _ => Ok (resp u); post := fun u _ _ => Ok (resp u) |}.

(** A remote side that cannot be reached. *)
Definition unreachable : network :=
  let e := Exn RequestException "Connection refused" in
  {| get := fun _ _ => Raise e; post := fun _ _ _ => Raise e |}.

Definition not_json : result pyvalue :=
  Raise (Exn JSONDecodeError "Expecting value: line 1 column 1 (char 0)").

Definition no_models : pyvalue := PDict [("data", PList [])].

Definition completion : pyvalue :=
  PDict [ ("choices", PList [PDict [("message", PDict [("content", PStr "hi")])]]);
          ("usage", PDict [("total_tokens", PInt 5)]) ].

Definition credits (granted used : pyvalue) : pyvalue :=
  PDict [("data", PDict [("total_credits", granted); ("total_usage", used)])].

Definition at_second (s : Z) : datetime :=
  {| year := 2025; month := 5; day := 17; hour := 9; minute := 30; second := s |}.

(** Three exchanges and one analytics sample. *)
Definition chat : list (datetime * command) :=
  [ (at_second 1, SaveMessage "gpt-3.5-turbo" "hello" "hi" 5);
    (at_second 1, SaveAnalytics "2025-05-17 12:30:01.250000" "gpt-3.5-turbo" 5 0.75 5);
    (at_second 4, SaveMessage "gpt-3.5-turbo" "how are you?" "fine" 9);
    (at_second 9, SaveMessage "deepseek-coder" "bye" "goodbye" 7) ].

Definition store : database := fst (run empty_database chat).

End Examples.

(** ** [main.py]: the balance line, the displayed history and the export *)

Module Ui.

(** The two colours [update_balance] uses. *)
Inductive color : Type := GREEN_400 | RED_400.

(** The [value] and [color] of the balance text. *)
Record balance_text : Type := { value : string; text_color : color }.

(** [update_balance]: the [try] block reads the balance and shows it in
    green; the [except] block shows a placeholder in red. *)
Definition update_balance (net : network) (api_client : OpenRouterClient)
  : balance_text :=
  match get_balance net api_client with
  | Ok balance => {| value := "Баланс: " +:+ balance; text_color := GREEN_400 |}
  | Raise _ => {| value := "Баланс: н/д"; text_color := RED_400 |}
  end.

(** The controls [main.py] puts in the chat list: [MessageBubble(message=...,
    is_user=...)] and the [ProgressRing] shown while a request runs. *)
Inductive control : Type :=
| MessageBubble (message : string) (is_user : bool)
| ProgressRing.

(** The two bubbles of one stored exchange. *)
Definition exchange (msg : message) : list control :=
  [MessageBubble (m_user_message msg) true; MessageBubble (m_ai_response msg) false].

(** [load_chat_history]: the rows of [get_chat_history()] are visited in
    reverse and each extends the list of controls by its two bubbles; when
    the reading raises, the [except] block logs and the list stays as it
    was. *)
Definition load_chat_history (db : database) (controls : list control)
  : list control :=
  match get_chat_history db default_limit with
  | Ok history =>
      fold_left (fun shown msg => (shown ++ exchange msg)%list)
                (rev history) controls
  | Raise _ => controls
  end.

(** One entry of [dialog_data] in [save_dialog]. *)
Definition export_entry (msg : message) : pyvalue :=
  PDict [ ("timestamp", PStr (m_timestamp msg));
          ("model", PStr (m_model msg));
          ("user_message", PStr (m_user_message msg));
          ("ai_response", PStr (m_ai_response msg));
          ("tokens_used", PInt (m_tokens_used msg)) ].

(** [dialog_data] in [save_dialog]: one entry per row of
    [get_chat_history()], in its order. *)
Definition dialog_data (db : database) : result (list pyvalue) :=
  history ← get_chat_history db default_limit;
  Ok (map export_entry history).

(** [f"chat_history_{datetime.now().strftime('%Y%m%d_%H%M%S')}.json"], for a
    year of four digits. *)
Definition export_filename (now : datetime) : string :=
  "chat_history_" +:+ pad4 (year now) +:+ pad2 (month now) +:+ pad2 (day now)
  +:+ "_" +:+ pad2 (hour now) +:+ pad2 (minute now) +:+ pad2 (second now)
  +:+ ".json".

End Ui.

(** ** [utils/cache.py]: the connection of each thread *)

Module Connection.

(** A connection object: the rank of the [sqlite3.connect] call that made it
    and the file it is on. *)
Record connection : Type := { serial : nat; path : string }.

(** The connections of the process: how many were opened so far, and the
    ones closed since, latest first. *)
Record connections : Type := { opened : nat; closed : list nat }.

(** The [ChatCache] object: [db_path], and [local], the [conn] attribute of
    every thread that has one. *)
Record ChatCache : Type := { db_path : string; local : gmap nat connection }.

(** [sqlite3.connect(p)]. *)
Definition connect (w : connections) (p : string) : connection * connections :=
  ({| serial := opened w; path := p |},
   {| opened := S (opened w); closed := closed w |}).

(** [c.close()]. *)
Definition close (w : connections) (c : connection) : connections :=
  {| opened := opened w; closed := serial c :: closed w |}.

(** [get_connection] called in [thread]: the connection of the thread, made
    at its first request. *)
Definition get_connection (thread : nat) (self : ChatCache) (w : connections)
  : connection * ChatCache * connections :=
  match local self !! thread with
  | Some c => (c, self, w)
  | None =>
      let (c, w') := connect w (db_path self) in
      (c, {| db_path := db_path self; local := <[thread := c]> (local self) |}, w')
  end.

(** The connection [create_tables] works on: opened, used and closed, and
    never stored. *)
Definition create_tables_connection (self : ChatCache) (w : connections)
  : connections :=
  let (c, w') := connect w (db_path self) in close w' c.

(** [ChatCache()] for the file at [p]. *)
Definition ChatCache_init (p : string) (w : connections) : ChatCache * connections :=
  let self := {| db_path := p; local := ∅ |} in
  (self, create_tables_connection self w).

(** [__del__] run in [thread]: closes the connection of that thread, if it
    has one. *)
Definition ChatCache_del (thread : nat) (self : ChatCache) (w : connections)
  : connections :=
  match local self !! thread with
  | Some c => close w c
  | None => w
  end.

(** The threads that call [get_connection], in order, and what each call
    returns. *)
Fixpoint get_connections (threads : list nat) (self : ChatCache) (w : connections)
  : list (nat * connection) * ChatCache * connections :=
  match threads with
  | [] => ([], self, w)
  | t :: threads' =>
      let '(c, self1, w1) := get_connection t self w in
      let '(served, self2, w2) := get_connections threads' self1 w1 in
      ((t, c) :: served, self2, w2)
  end.

End Connection.

(** * Evaluation of the model on small inputs *)

Example py_int_literals :
  py_int repr_str " 12_3 " = Ok 123 /\ py_int repr_str "-5" = Ok (-5) /\
  py_int repr_str "١٢٣" = Ok 123 /\
  py_int repr_str "1__2"
  = Raise (Exn ValueError "invalid literal for int() with base 10: '1__2'").
Proof. repeat split. Qed.

Example py_float_literals :
  py_float repr_str "0.7" = Ok DEFAULT_TEMPERATURE /\
  py_float repr_str "1_000.5" = Ok 1000.5%float /\
  py_float repr_str "-Infinity" = Ok neg_infinity /\
  py_float repr_str "1e999" = Ok infinity /\
  py_float repr_str "1e" = Raise (float_value_error repr_str "1e").
Proof. repeat split. Qed.

Example stored_real_values :
  map stored_real [0.75; -0; nan; infinity]%float
  = [Some 0.75; Some 0; None; Some infinity]%float.
Proof. reflexivity. Qed.

Example format_2f_rounds_half_even :
  map format_2f [6.5; 0.125; 0.375; -0.5; 1234.5]%float
  = ["6.50"; "0.12"; "0.38"; "-0.50"; "1234.50"].
Proof. reflexivity. Qed.

Example py_sub_mixed :
  py_sub (PInt 10) (PFloat 3.5) = Ok (PFloat 6.5) /\
  py_sub (PBool true) (PInt 3) = Ok (PInt (-2)) /\
  py_sub (PStr "10") (PInt 3)
  = Raise (Exn TypeError "unsupported operand type(s) for -: 'str' and 'int'").
Proof. repeat split. Qed.

Example raise_for_status_404 :
  raise_for_status {| status_code := 404; reason := "Not Found";
                      url := "https://openrouter.ai/api/v1/models";
                      json := Examples.not_json |}
  = Raise (Exn HTTPError
             "404 Client Error: Not Found for url: https://openrouter.ai/api/v1/models").
Proof. reflexivity. Qed.

Example get_models_lists_names :
  get_models
    (Examples.answering 200 "OK"
       (Ok (PDict [("data", PList [PDict [("id", PStr "a/b"); ("name", PStr "B");
                                          ("context_length", PInt 4096)]])])))
    Examples.client
  = Ok [model "a/b" "B"].
Proof. reflexivity. Qed.

Example get_models_entry_without_name :
  get_models
    (Examples.answering 200 "OK"
       (Ok (PDict [("data", PList [PDict [("id", PStr "a/b")]])])))
    Examples.client
  = Ok fallback_models.
Proof. reflexivity. Qed.

Example CURRENT_TIMESTAMP_format :
  CURRENT_TIMESTAMP (Examples.at_second 4) = "2025-05-17 09:30:04".
Proof. reflexivity. Qed.

(** Rows written in the same second keep their table order. *)
Example get_chat_history_same_second :
  (history ← get_chat_history
       (fst (run empty_database
               [ (Examples.at_second 1, SaveMessage "m" "first" "a" 1);
                 (Examples.at_second 2, SaveMessage "m" "second" "b" 1);
                 (Examples.at_second 2, SaveMessage "m" "third" "c" 1) ]))
       default_limit;
   Ok (map m_id history))
  = Ok [2; 3; 1].
Proof. reflexivity. Qed.

(** A value outside 64 bits is refused before the statement runs: nothing is
    written and no rowid is used. *)
Example save_message_overflow :
  save_message empty_database (Examples.at_second 1) "m" "u" "a" (2 ^ 63)
  = Raise integer_overflow /\
  map m_id
    (snd (run empty_database
            [ (Examples.at_second 1, SaveMessage "m" "first" "a" (2 ^ 63));
              (Examples.at_second 2, SaveMessage "m" "second" "b" 1) ]))
  = [1].
Proof. split; reflexivity. Qed.

Example rowid_after_clear_history :
  map m_id
    (snd (run empty_database
            [ (Examples.at_second 1, SaveMessage "m" "first" "a" 1);
              (Examples.at_second 2, ClearHistory);
              (Examples.at_second 3, SaveMessage "m" "second" "b" 1) ]))
  = [1; 2].
Proof. reflexivity. Qed.

(** * Properties *)

(** ** The result monad *)

Lemma bind_Ok {A B : Type} (c : result A) (k : A -> result B) (b : B) :
  c ≫= k = Ok b -> exists a, c = Ok a /\ k a = Ok b.
Proof. destruct c as [a | e]; simpl; [eauto | discriminate]. Qed.

Lemma try_except_returns {A : Type} (body : result A) (h : exn -> A) :
  returns (try_except body (fun e => Ok (h e))).
Proof. destruct body; simpl; eexists; reflexivity. Qed.

Lemma mapM_length {A B : Type} (f : A -> result B) (l : list A) (bs : list B) :
  mapM f l = Ok bs -> length bs = length l.
Proof.
  revert bs. induction l as [| a l IH]; simpl; intros bs H.
  - injection H as <-. reflexivity.
  - apply bind_Ok in H as (b & _ & H).
    apply bind_Ok in H as (bs' & Hl & H).
    injection H as <-. simpl. f_equal. auto.
Qed.

Lemma mapM_Forall2 {A B : Type} (f : A -> result B) (l : list A) (bs : list B) :
  mapM f l = Ok bs <-> Forall2 (fun a b => f a = Ok b) l bs.
Proof.
  revert bs. induction l as [| a l IH]; intros bs; simpl.
  - split.
    + intros [= <-]. constructor.
    + intros H. inversion H. reflexivity.
  - split.
    + intros H. apply bind_Ok in H as (b & Hb & H).
      apply bind_Ok in H as (bs' & Hbs & [= <-]).
      constructor; [exact Hb | apply IH; exact Hbs].
    + intros H. inversion H as [| a' b l' bs' Hb Hbs]; subst.
      rewrite Hb. simpl. apply IH in Hbs. rewrite Hbs. reflexivity.
Qed.

(** ** [get_models] *)

(** What [get_models] does with a decoded body. *)
Definition models_of_body (body : pyvalue) : result (list pyvalue) :=
  data ← py_get body "data" (PList []);
  items ← py_iter data;
  mapM model_entry items.

(** The request, the status check or the reading of the response fails. *)
Inductive models_failure (net : network) (self : OpenRouterClient) : Prop :=
| models_request_fails e :
    get net (base_url self +:+ "/models") (headers self) = Raise e ->
    models_failure net self
| models_status_fails resp e :
    get net (base_url self +:+ "/models") (headers self) = Ok resp ->
    raise_for_status resp = Raise e ->
    models_failure net self
| models_decoding_fails resp e :
    get net (base_url self +:+ "/models") (headers self) = Ok resp ->
    raise_for_status resp = Ok () ->
    json resp = Raise e ->
    models_failure net self
| models_reading_fails resp body e :
    get net (base_url self +:+ "/models") (headers self) = Ok resp ->
    raise_for_status resp = Ok () ->
    json resp = Ok body ->
    models_of_body body = Raise e ->
    models_failure net self.

(** The provider answered, the status passed, and the body held [items]
    under ["data"] (or nothing, read as the empty list). *)
Definition models_listed (net : network) (self : OpenRouterClient)
    (items : list pyvalue) : Prop :=
  exists resp body data,
    get net (base_url self +:+ "/models") (headers self) = Ok resp /\
    raise_for_status resp = Ok () /\
    json resp = Ok body /\
    py_get body "data" (PList []) = Ok data /\
    py_iter data = Ok items.

Lemma fetch_models_cases net self :
  (models_failure net self /\ exists e, fetch_models net self = Raise e) \/
  (exists items ms, models_listed net self items /\
                    mapM model_entry items = Ok ms /\
                    fetch_models net self = Ok ms).
Proof.
  unfold fetch_models, models_listed.
  destruct (get net _ _) as [resp | e] eqn:Hget; simpl.
  2: { left. split; [eapply models_request_fails; eauto | eauto]. }
  destruct (raise_for_status resp) as [[] | e] eqn:Hst; simpl.
  2: { left. split; [eapply models_status_fails; eauto | eauto]. }
  destruct (json resp) as [body | e] eqn:Hjs; simpl.
  2: { left. split; [eapply models_decoding_fails; eauto | eauto]. }
  destruct (models_of_body body) as [ms | e] eqn:Hms.
  - right. unfold models_of_body in Hms.
    apply bind_Ok in Hms as (data & Hdata & Hms).
    apply bind_Ok in Hms as (items & Hitems & Hms).
    exists items, ms. rewrite Hdata. simpl. rewrite Hitems. simpl.
    split; [exists resp, body, data; auto | auto].
  - left. split; [eapply models_reading_fails; eauto |].
    exists e. exact Hms.
Qed.

Lemma models_failure_raises net self :
  models_failure net self -> exists e, fetch_models net self = Raise e.
Proof.
  unfold fetch_models.
  intros [e H | resp e H1 H2 | resp e H1 H2 H3 | resp body e H1 H2 H3 H4].
  - rewrite H. simpl. eauto.
  - rewrite H1. simpl. rewrite H2. simpl. eauto.
  - rewrite H1. simpl. rewrite H2. simpl. rewrite H3. simpl. eauto.
  - rewrite H1. simpl. rewrite H2. simpl. rewrite H3. simpl. eauto.
Qed.

(** C1, as stated, fails: a provider that answers 200 with an empty ["data"]
    list makes [get_models] return the empty list; nothing failed, so the
    fallback is not used. *)
Lemma get_models_empty_data :
  get_models (Examples.answering 200 "OK" (Ok Examples.no_models)) Examples.client
  = Ok []
  /\ ~ models_failure (Examples.answering 200 "OK" (Ok Examples.no_models))
         Examples.client.
Proof.
  split; [reflexivity |].
  intros H. apply models_failure_raises in H as [e H]. discriminate H.
Qed.

(** The entry [get_models] makes of an item [m] of the list:
    [{'id': m['id'], 'name': m['name']}]. *)
Definition entry_of (m e : pyvalue) : Prop :=
  exists id name,
    py_getitem_str m "id" = Ok id /\ py_getitem_str m "name" = Ok name /\
    e = PDict [("id", id); ("name", name)].

Lemma model_entry_Ok (m e : pyvalue) : model_entry m = Ok e <-> entry_of m e.
Proof.
  unfold model_entry, entry_of. split.
  - intros H. apply bind_Ok in H as (id & Hid & H).
    apply bind_Ok in H as (name & Hname & [= <-]). eauto.
  - intros (id & name & -> & -> & ->). reflexivity.
Qed.

(** C1, amended: [get_models] never raises; when the request, the status check
    or the reading of the response fails it returns exactly the three fallback
    models; when nothing fails it returns the entries of the items of the
    provider's list, one [(id, name)] entry per item and in their order, so
    its result is empty exactly when that list is. *)
Theorem get_models_fallback net self :
  returns (get_models net self) /\
  (models_failure net self -> get_models net self = Ok fallback_models) /\
  (~ models_failure net self ->
   exists items ms,
     models_listed net self items /\
     get_models net self = Ok ms /\
     Forall2 entry_of items ms /\
     length ms = length items) /\
  (get_models net self = Ok [] <-> models_listed net self []) /\
  fallback_models = [ model "deepseek-coder" "DeepSeek";
                      model "claude-3-sonnet" "Claude 3.5 Sonnet";
                      model "gpt-3.5-turbo" "GPT-3.5 Turbo" ].
Proof.
  split; [apply try_except_returns |].
  split.
  { intros H. apply models_failure_raises in H as [e H].
    unfold get_models. rewrite H. reflexivity. }
  split.
  { intros Hok.
    destruct (fetch_models_cases net self)
      as [[Hfail _] | (items & ms & Hl & Hm & Hf)]; [contradiction |].
    exists items, ms. split; [exact Hl |].
    split; [unfold get_models; rewrite Hf; reflexivity |].
    split; [| eapply mapM_length; eauto].
    apply mapM_Forall2 in Hm.
    eapply Forall2_impl; [exact Hm |].
    intros m e He. apply model_entry_Ok. exact He. }
  split; [| reflexivity].
  split.
  - intros Hempty. unfold get_models in Hempty.
    destruct (fetch_models_cases net self)
      as [[_ [e He]] | (items & ms & Hl & Hm & Hf)].
    + rewrite He in Hempty. discriminate Hempty.
    + rewrite Hf in Hempty. simpl in Hempty. injection Hempty as ->.
      apply mapM_length in Hm. destruct items; [exact Hl | discriminate Hm].
  - intros (resp & body & data & H1 & H2 & H3 & H4 & H5).
    unfold get_models, fetch_models.
    rewrite H1; simpl. rewrite H2; simpl. rewrite H3; simpl.
    rewrite H4; simpl. rewrite H5. reflexivity.
Qed.

(** The amended C1 at an unreachable provider. *)
Lemma get_models_fallback_unreachable :
  get_models Examples.unreachable Examples.client = Ok fallback_models.
Proof.
  apply (get_models_fallback Examples.unreachable Examples.client).
  eapply models_request_fails. reflexivity.
Defined.

(** ** [send_message] *)

Definition completion_request (net : network) (self : OpenRouterClient)
    (message model : string) : result Response :=
  post net (base_url self +:+ "/chat/completions") (headers self)
       (payload self message model).

(** The result of [send_message] after the exception [e]. *)
Definition error_object (e : exn) : pyvalue := PDict [("error", PStr (exn_str e))].

Definition error_status (resp : Response) : Prop :=
  400 <= status_code resp < 600.

Lemma raise_for_status_error resp :
  error_status resp ->
  exists e, raise_for_status resp = Raise e /\ exn_class e = HTTPError.
Proof.
  unfold error_status, raise_for_status. intros H.
  destruct (Z.leb_spec 400 (status_code resp)); [| lia].
  destruct (Z.ltb_spec (status_code resp) 500); simpl; [eauto |].
  destruct (Z.leb_spec 500 (status_code resp)); [| lia].
  destruct (Z.ltb_spec (status_code resp) 600); simpl; [eauto | lia].
Qed.

Lemma raise_for_status_pass resp :
  ~ error_status resp -> raise_for_status resp = Ok ().
Proof.
  unfold error_status, raise_for_status. intros H.
  destruct (Z.leb_spec 400 (status_code resp)),
           (Z.ltb_spec (status_code resp) 500); simpl; try lia;
  destruct (Z.leb_spec 500 (status_code resp)),
           (Z.ltb_spec (status_code resp) 600); simpl; try lia; reflexivity.
Qed.

Lemma send_message_body net self message model resp body :
  completion_request net self message model = Ok resp ->
  ~ error_status resp ->
  json resp = Ok body ->
  send_message net self message model = Ok body.
Proof.
  unfold completion_request, send_message, post_message.
  intros -> Hst Hjs. simpl.
  rewrite (raise_for_status_pass _ Hst). simpl. rewrite Hjs. reflexivity.
Qed.

(** C2, as stated, fails: a 300 answer is not a 2xx status, yet the status
    check lets it pass and [send_message] returns its decoded body, which
    carries no ['error'] key. *)
Lemma send_message_passes_300 :
  send_message
    (Examples.answering 300 "Multiple Choices" (Ok (PDict [("choices", PList [])])))
    Examples.client "hello" "gpt-3.5-turbo"
  = Ok (PDict [("choices", PList [])])
  /\ py_contains "error" (PDict [("choices", PList [])]) = Ok false.
Proof. split; reflexivity. Qed.

(** C2, amended: [send_message] never raises.  It returns the decoded body
    when the request is answered with a status outside 400..599 and the body
    decodes; it returns [{'error': str(e)}] when the request raises [e], when
    the status is in 400..599 (the statuses the status check rejects), or when
    decoding the body raises [e]. *)
Theorem send_message_never_raises net self message model :
  returns (send_message net self message model) /\
  (forall e,
     completion_request net self message model = Raise e ->
     send_message net self message model = Ok (error_object e)) /\
  (forall resp,
     completion_request net self message model = Ok resp ->
     error_status resp ->
     exists e, exn_class e = HTTPError /\
               send_message net self message model = Ok (error_object e)) /\
  (forall resp e,
     completion_request net self message model = Ok resp ->
     ~ error_status resp ->
     json resp = Raise e ->
     send_message net self message model = Ok (error_object e)) /\
  (forall resp body,
     completion_request net self message model = Ok resp ->
     ~ error_status resp ->
     json resp = Ok body ->
     send_message net self message model = Ok body) /\
  (forall e, py_contains "error" (error_object e) = Ok true).
Proof.
  unfold completion_request, send_message, post_message.
  split; [apply try_except_returns |].
  split; [intros e ->; reflexivity |].
  split.
  { intros resp -> Hst. apply raise_for_status_error in Hst as (e & Hst & He).
    exists e. simpl. rewrite Hst. auto. }
  split.
  { intros resp e -> Hst Hjs. simpl.
    rewrite (raise_for_status_pass _ Hst). simpl. rewrite Hjs. reflexivity. }
  split; [| reflexivity].
  intros resp body Hreq Hst Hjs.
  apply (send_message_body net self message model resp body); assumption.
Qed.

(** The amended C2 at a provider that answers 500. *)
Lemma send_message_server_error :
  exists e, exn_class e = HTTPError /\
    send_message (Examples.answering 500 "Internal Server Error" Examples.not_json)
      Examples.client "hello" "gpt-3.5-turbo" = Ok (error_object e).
Proof.
  refine (proj1 (proj2 (proj2
    (send_message_never_raises
       (Examples.answering 500 "Internal Server Error" Examples.not_json)
       Examples.client "hello" "gpt-3.5-turbo"))) _ eq_refl _).
  unfold error_status. simpl. lia.
Defined.

(** ** The reply read by [send_message_click] *)

(** C8: when the completion endpoint answers [send_message("hello",
    "gpt-3.5-turbo")] with 200 and the body [{choices: [{message: {content:
    "hi"}}], usage: {total_tokens: 5}}], the handler reads the response text
    ["hi"] and the token count [5] from the object [send_message] returns. *)
Theorem send_message_click_reads_reply repr net self resp :
  completion_request net self "hello" "gpt-3.5-turbo" = Ok resp ->
  status_code resp = 200 ->
  json resp = Ok Examples.completion ->
  send_message net self "hello" "gpt-3.5-turbo" = Ok Examples.completion /\
  (send_message net self "hello" "gpt-3.5-turbo"
     ≫= send_message_click_extract repr) = Ok (PStr "hi", PInt 5) /\
  (choices ← py_getitem_str Examples.completion "choices";
   first ← py_getitem_int choices 0;
   message ← py_getitem_str first "message";
   py_getitem_str message "content") = Ok (PStr "hi") /\
  (usage ← py_get Examples.completion "usage" (PDict []);
   py_get usage "total_tokens" (PInt 0)) = Ok (PInt 5).
Proof.
  intros Hreq Hcode Hbody.
  assert (Hsend : send_message net self "hello" "gpt-3.5-turbo"
                  = Ok Examples.completion).
  { apply (send_message_body net self "hello" "gpt-3.5-turbo" resp); auto.
    unfold error_status. lia. }
  rewrite Hsend. repeat split; reflexivity.
Qed.

(** C8 at a provider that answers every request with that body. *)
Lemma send_message_click_reads_reply_example :
  (send_message (Examples.answering 200 "OK" (Ok Examples.completion))
     Examples.client "hello" "gpt-3.5-turbo"
     ≫= send_message_click_extract (fun _ => "")) = Ok (PStr "hi", PInt 5).
Proof.
  refine (proj1 (proj2
    (send_message_click_reads_reply (fun _ => "")
       (Examples.answering 200 "OK" (Ok Examples.completion)) Examples.client
       _ eq_refl eq_refl eq_refl))).
Defined.

(** ** Construction of the client *)

Definition resolved_api_key (env : gmap string string) : string :=
  getenv env "OPENROUTER_API_KEY" DEFAULT_API_KEY.

Definition resolved_max_tokens (repr : string -> string)
    (env : gmap string string) : result Z :=
  py_int repr (getenv env "MAX_TOKENS" (string_of_Z DEFAULT_MAX_TOKENS)).

Definition resolved_temperature (repr : string -> string)
    (env : gmap string string) : result float :=
  py_float repr (getenv env "TEMPERATURE" str_DEFAULT_TEMPERATURE).

Lemma init_unfold repr env net :
  init repr env net =
  tokens ← resolved_max_tokens repr env;
  temp ← resolved_temperature repr env;
  if String.eqb (resolved_api_key env) "" then Raise api_key_error
  else
    models ← get_models net
      {| api_key := resolved_api_key env;
         base_url := getenv env "BASE_URL" DEFAULT_BASE_URL;
         debug := existsb (String.eqb (lower (getenv env "DEBUG" (str_bool DEFAULT_DEBUG))))
                    ["1"; "true"; "yes"];
         log_level := getenv env "LOG_LEVEL" DEFAULT_LOG_LEVEL;
         max_tokens := tokens; temperature := temp;
         headers := <["Authorization" := "Bearer " +:+ resolved_api_key env]>
                      (<["Content-Type" := "application/json"]> ∅);
         available_models := [] |};
    Ok {| api_key := resolved_api_key env;
          base_url := getenv env "BASE_URL" DEFAULT_BASE_URL;
          debug := existsb (String.eqb (lower (getenv env "DEBUG" (str_bool DEFAULT_DEBUG))))
                     ["1"; "true"; "yes"];
          log_level := getenv env "LOG_LEVEL" DEFAULT_LOG_LEVEL;
          max_tokens := tokens; temperature := temp;
          headers := <["Authorization" := "Bearer " +:+ resolved_api_key env]>
                       (<["Content-Type" := "application/json"]> ∅);
          available_models := models |}.
Proof. reflexivity. Qed.

(** The resolved credential is empty only when the variable is set, to the
    empty string: the default is not empty. *)
Lemma resolved_api_key_empty env :
  resolved_api_key env = "" <-> env !! "OPENROUTER_API_KEY" = Some "".
Proof.
  unfold resolved_api_key, getenv.
  destruct (env !! "OPENROUTER_API_KEY") as [k |]; simpl.
  - split; [intros -> | intros [= ->]]; reflexivity.
  - split; discriminate.
Qed.

(** C9, as stated, fails: with a credential in the environment and
    [MAX_TOKENS=abc], construction raises a [ValueError]. *)
Lemma init_raises_with_api_key :
  init repr_str
       (<["OPENROUTER_API_KEY" := "sk-or-test"]> (<["MAX_TOKENS" := "abc"]> ∅))
       Examples.unreachable
  = Raise (Exn ValueError "invalid literal for int() with base 10: 'abc'")
  /\ resolved_api_key
       (<["OPENROUTER_API_KEY" := "sk-or-test"]> (<["MAX_TOKENS" := "abc"]> ∅))
     = "sk-or-test".
Proof. split; vm_compute; reflexivity. Qed.

(** C9, amended: when [MAX_TOKENS] and [TEMPERATURE] (or their defaults) are an
    integer and a float literal, construction raises the configuration error
    if the resolved credential is empty and returns a client holding it
    otherwise; when one of the two is malformed, construction raises the
    conversion's error whatever the credential is. *)
Theorem init_api_key repr env net :
  (forall e, resolved_max_tokens repr env = Raise e -> init repr env net = Raise e) /\
  (forall n e, resolved_max_tokens repr env = Ok n ->
               resolved_temperature repr env = Raise e ->
               init repr env net = Raise e) /\
  (forall n t, resolved_max_tokens repr env = Ok n ->
               resolved_temperature repr env = Ok t ->
     (resolved_api_key env = "" -> init repr env net = Raise api_key_error) /\
     (resolved_api_key env <> "" ->
        exists self, init repr env net = Ok self /\
                     api_key self = resolved_api_key env /\
                     max_tokens self = n /\ temperature self = t)).
Proof.
  rewrite init_unfold.
  split; [intros e ->; reflexivity |].
  split; [intros n e -> ->; reflexivity |].
  intros n t -> ->. simpl. split.
  - intros ->. reflexivity.
  - intros Hkey. apply String.eqb_neq in Hkey. rewrite Hkey.
    match goal with |- context [get_models net ?s] =>
      destruct (try_except_returns (fetch_models net s) (fun _ => fallback_models))
        as [models Hm]
    end.
    unfold get_models. rewrite Hm. simpl. eexists. eauto.
Qed.

(** The amended C9 in an empty environment: every default applies and the
    client is built. *)
Lemma init_with_defaults :
  exists self, init repr_str ∅ Examples.unreachable = Ok self /\
               api_key self = DEFAULT_API_KEY /\
               max_tokens self = 1000 /\ temperature self = DEFAULT_TEMPERATURE.
Proof.
  refine (proj2 (proj2 (proj2 (init_api_key repr_str ∅ Examples.unreachable))
                   1000 DEFAULT_TEMPERATURE _ _) _).
  - vm_compute. reflexivity.
  - vm_compute. reflexivity.
  - discriminate.
Defined.

(** ** Order of TEXT values *)

Lemma ascii_compare_refl (c : ascii) : Ascii.compare c c = Eq.
Proof. apply N.compare_refl. Qed.

Lemma string_compare_refl (s : string) : String.compare s s = Eq.
Proof.
  induction s as [| c s IH]; simpl; [reflexivity |].
  rewrite ascii_compare_refl. exact IH.
Qed.

Lemma string_compare_lt_trans (a b c : string) :
  String.compare a b = Lt -> String.compare b c = Lt -> String.compare a c = Lt.
Proof.
  revert b c. induction a as [| x a IH]; intros [| y b] [| z c]; simpl;
    try discriminate; try reflexivity.
  unfold Ascii.compare.
  destruct (N.compare_spec (N_of_ascii x) (N_of_ascii y)) as [Hxy | Hxy | Hxy];
    try discriminate;
  destruct (N.compare_spec (N_of_ascii y) (N_of_ascii z)) as [Hyz | Hyz | Hyz];
    try discriminate; intros H1 H2.
  - rewrite Hxy, Hyz, N.compare_refl. eauto.
  - rewrite Hxy. apply N.compare_lt_iff in Hyz. rewrite Hyz. reflexivity.
  - rewrite <- Hyz. apply N.compare_lt_iff in Hxy. rewrite Hxy. reflexivity.
  - assert (H : (N_of_ascii x < N_of_ascii z)%N) by lia.
    apply N.compare_lt_iff in H. rewrite H. reflexivity.
Qed.

Lemma string_leb_refl (s : string) : String.leb s s = true.
Proof. unfold String.leb. rewrite string_compare_refl. reflexivity. Qed.

Lemma string_leb_trans (a b c : string) :
  String.leb a b = true -> String.leb b c = true -> String.leb a c = true.
Proof.
  unfold String.leb.
  destruct (String.compare a b) eqn:Hab; try discriminate;
  destruct (String.compare b c) eqn:Hbc; try discriminate; intros _ _.
  - apply String.compare_eq_iff in Hab, Hbc. subst.
    rewrite string_compare_refl. reflexivity.
  - apply String.compare_eq_iff in Hab. subst. rewrite Hbc. reflexivity.
  - apply String.compare_eq_iff in Hbc. subst. rewrite Hab. reflexivity.
  - rewrite (string_compare_lt_trans _ _ _ Hab Hbc). reflexivity.
Qed.

(** ** Timestamps written by the engine *)

(** The clock readings [CURRENT_TIMESTAMP] prints in full: a year of four
    digits and two digits for every other field. *)
Definition printable (d : datetime) : Prop :=
  0 <= year d <= 9999 /\ 0 <= month d <= 99 /\ 0 <= day d <= 99 /\
  0 <= hour d <= 99 /\ 0 <= minute d <= 99 /\ 0 <= second d <= 99.

(** The fields of a clock reading in one number, most significant first:
    readings are in the order of their instants. *)
Definition instant (d : datetime) : Z :=
  ((((year d * 100 + month d) * 100 + day d) * 100 + hour d) * 100
   + minute d) * 100 + second d.

Lemma string_app_cons (c : ascii) (s t : string) :
  String c s +:+ t = String c (s +:+ t).
Proof. reflexivity. Qed.

Lemma string_app_nil_r (s : string) : s +:+ "" = s.
Proof.
  induction s as [| c s IH]; [reflexivity |].
  rewrite string_app_cons, IH. reflexivity.
Qed.

Lemma string_app_assoc (a b c : string) : (a +:+ b) +:+ c = a +:+ b +:+ c.
Proof.
  induction a as [| x a IH]; [reflexivity |].
  rewrite !string_app_cons, IH. reflexivity.
Qed.

Definition lexicographic (c : comparison) (rest : comparison) : comparison :=
  match c with
  | Eq => rest
  | _ => c
  end.

Lemma digit_compare (d1 d2 : Z) (s1 s2 : string) :
  0 <= d1 <= 9 -> 0 <= d2 <= 9 ->
  String.compare (digit d1 +:+ s1) (digit d2 +:+ s2)
  = lexicographic (d1 ?= d2) (String.compare s1 s2).
Proof.
  intros H1 H2.
  assert (E1 : d1 = 0 \/ d1 = 1 \/ d1 = 2 \/ d1 = 3 \/ d1 = 4 \/ d1 = 5
               \/ d1 = 6 \/ d1 = 7 \/ d1 = 8 \/ d1 = 9) by lia.
  assert (E2 : d2 = 0 \/ d2 = 1 \/ d2 = 2 \/ d2 = 3 \/ d2 = 4 \/ d2 = 5
               \/ d2 = 6 \/ d2 = 7 \/ d2 = 8 \/ d2 = 9) by lia.
  clear H1 H2.
  repeat (destruct E1 as [-> | E1]); try subst d1;
    repeat (destruct E2 as [-> | E2]); try subst d2; reflexivity.
Qed.

Lemma lexicographic_base (b hi1 lo1 hi2 lo2 : Z) (rest : comparison) :
  0 <= lo1 < b -> 0 <= lo2 < b ->
  lexicographic (hi1 ?= hi2) (lexicographic (lo1 ?= lo2) rest)
  = lexicographic (hi1 * b + lo1 ?= hi2 * b + lo2) rest.
Proof.
  intros H1 H2. unfold lexicographic.
  destruct (Z.compare_spec hi1 hi2) as [-> | Hlt | Hgt].
  - destruct (Z.compare_spec lo1 lo2) as [-> | Hlt | Hgt].
    + rewrite Z.compare_refl. reflexivity.
    + assert (H : hi2 * b + lo1 < hi2 * b + lo2) by lia.
      apply Z.compare_lt_iff in H. rewrite H. reflexivity.
    + assert (H : hi2 * b + lo1 > hi2 * b + lo2) by lia.
      rewrite H. reflexivity.
  - assert (H : hi1 * b + lo1 < hi2 * b + lo2) by nia.
    apply Z.compare_lt_iff in H. rewrite H. reflexivity.
  - assert (H : hi1 * b + lo1 > hi2 * b + lo2) by nia.
    rewrite H. reflexivity.
Qed.

Lemma pad2_compare (n1 n2 : Z) (s1 s2 : string) :
  0 <= n1 <= 99 -> 0 <= n2 <= 99 ->
  String.compare (pad2 n1 +:+ s1) (pad2 n2 +:+ s2)
  = lexicographic (n1 ?= n2) (String.compare s1 s2).
Proof.
  intros H1 H2. unfold pad2.
  change ((digit (n1 / 10 mod 10) +:+ digit (n1 mod 10)) +:+ s1)
    with (digit (n1 / 10 mod 10) +:+ digit (n1 mod 10) +:+ s1).
  change ((digit (n2 / 10 mod 10) +:+ digit (n2 mod 10)) +:+ s2)
    with (digit (n2 / 10 mod 10) +:+ digit (n2 mod 10) +:+ s2).
  pose proof (Z.mod_pos_bound n1 10 ltac:(lia)).
  pose proof (Z.mod_pos_bound n2 10 ltac:(lia)).
  pose proof (Z.mod_pos_bound (n1 / 10) 10 ltac:(lia)).
  pose proof (Z.mod_pos_bound (n2 / 10) 10 ltac:(lia)).
  rewrite digit_compare by lia. rewrite digit_compare by lia.
  rewrite (Z.mod_small (n1 / 10) 10)
    by (split; [apply Z.div_pos; lia | apply Z.div_lt_upper_bound; lia]).
  rewrite (Z.mod_small (n2 / 10) 10)
    by (split; [apply Z.div_pos; lia | apply Z.div_lt_upper_bound; lia]).
  rewrite (lexicographic_base 10) by lia.
  rewrite (Z.mul_comm (n1 / 10)), (Z.mul_comm (n2 / 10)).
  rewrite <- !Z.div_mod by lia. reflexivity.
Qed.

Lemma pad4_compare (n1 n2 : Z) (s1 s2 : string) :
  0 <= n1 <= 9999 -> 0 <= n2 <= 9999 ->
  String.compare (pad4 n1 +:+ s1) (pad4 n2 +:+ s2)
  = lexicographic (n1 ?= n2) (String.compare s1 s2).
Proof.
  intros H1 H2. unfold pad4.
  rewrite !string_app_assoc.
  pose proof (Z.mod_pos_bound n1 100 ltac:(lia)).
  pose proof (Z.mod_pos_bound n2 100 ltac:(lia)).
  pose proof (Z.mod_pos_bound (n1 / 100) 100 ltac:(lia)).
  pose proof (Z.mod_pos_bound (n2 / 100) 100 ltac:(lia)).
  rewrite pad2_compare by lia. rewrite pad2_compare by lia.
  rewrite (Z.mod_small (n1 / 100) 100)
    by (split; [apply Z.div_pos; lia | apply Z.div_lt_upper_bound; lia]).
  rewrite (Z.mod_small (n2 / 100) 100)
    by (split; [apply Z.div_pos; lia | apply Z.div_lt_upper_bound; lia]).
  rewrite (lexicographic_base 100) by lia.
  rewrite (Z.mul_comm (n1 / 100)), (Z.mul_comm (n2 / 100)).
  rewrite <- !Z.div_mod by lia. reflexivity.
Qed.

Lemma separator_compare (c : ascii) (s1 s2 : string) :
  String.compare (String c s1) (String c s2) = String.compare s1 s2.
Proof. simpl. rewrite ascii_compare_refl. reflexivity. Qed.

(** The TEXT order of two timestamps written by the engine is the order of
    the instants they were written at. *)
Lemma CURRENT_TIMESTAMP_compare (a b : datetime) :
  printable a -> printable b ->
  String.compare (CURRENT_TIMESTAMP a) (CURRENT_TIMESTAMP b)
  = (instant a ?= instant b).
Proof.
  intros (Hy1 & Hm1 & Hd1 & Hh1 & Hi1 & Hs1) (Hy2 & Hm2 & Hd2 & Hh2 & Hi2 & Hs2).
  unfold CURRENT_TIMESTAMP, instant.
  rewrite <- (string_app_nil_r (pad2 (second a))) at 1.
  rewrite <- (string_app_nil_r (pad2 (second b))) at 1.
  rewrite pad4_compare by assumption.
  change ("-" +:+ ?s) with (String "-" s). rewrite separator_compare.
  rewrite pad2_compare by assumption.
  change ("-" +:+ ?s) with (String "-" s). rewrite separator_compare.
  rewrite pad2_compare by assumption.
  change (" " +:+ ?s) with (String " " s). rewrite separator_compare.
  rewrite pad2_compare by assumption.
  change (":" +:+ ?s) with (String ":" s). rewrite separator_compare.
  rewrite pad2_compare by assumption.
  change (":" +:+ ?s) with (String ":" s). rewrite separator_compare.
  rewrite pad2_compare by assumption.
  cbn [String.compare].
  rewrite (lexicographic_base 100 (year a) (month a)) by lia.
  rewrite (lexicographic_base 100 _ (day a)) by lia.
  rewrite (lexicographic_base 100 _ (hour a)) by lia.
  rewrite (lexicographic_base 100 _ (minute a)) by lia.
  rewrite (lexicographic_base 100 _ (second a)) by lia.
  unfold lexicographic.
  destruct (_ ?= _); reflexivity.
Qed.

Lemma CURRENT_TIMESTAMP_leb (a b : datetime) :
  printable a -> printable b ->
  String.leb (CURRENT_TIMESTAMP a) (CURRENT_TIMESTAMP b) = true
  <-> instant a <= instant b.
Proof.
  intros Ha Hb. unfold String.leb.
  rewrite (CURRENT_TIMESTAMP_compare a b Ha Hb).
  destruct (Z.compare_spec (instant a) (instant b)); split; intros; try lia;
    try reflexivity; discriminate.
Qed.

(** The row [r] carries the timestamp the engine wrote at the reading [t]. *)
Definition written_at (r : message) (t : datetime) : Prop :=
  printable t /\ m_timestamp r = CURRENT_TIMESTAMP t.

(** ** The sort behind [ORDER BY] *)

Section Sorting.

Context {A : Type} (before : A -> A -> bool).
Hypothesis before_total : forall x y, before x y = true \/ before y x = true.
Hypothesis before_trans :
  forall x y z, before x y = true -> before y z = true -> before x z = true.

Lemma insert_by_Permutation (x : A) (l : list A) :
  Permutation (insert_by before x l) (x :: l).
Proof.
  induction l as [| y l IH]; simpl; [reflexivity |].
  destruct (before x y); [reflexivity |].
  rewrite IH. apply perm_swap.
Qed.

Lemma sort_by_Permutation (l : list A) : Permutation (sort_by before l) l.
Proof.
  induction l as [| x l IH]; simpl; [reflexivity |].
  rewrite insert_by_Permutation. apply perm_skip. exact IH.
Qed.

Lemma insert_by_sorted (x : A) (l : list A) :
  StronglySorted (fun a b => before a b = true) l ->
  StronglySorted (fun a b => before a b = true) (insert_by before x l).
Proof.
  induction 1 as [| y l Hl IH Hy]; simpl.
  - repeat constructor.
  - destruct (before x y) eqn:Hxy.
    + constructor; [constructor; assumption |].
      constructor; [exact Hxy |].
      eapply List.Forall_impl; [| exact Hy]. intros z Hz. eauto.
    + constructor; [exact IH |].
      assert (Hyx : before y x = true)
        by (destruct (before_total x y); congruence).
      eapply Permutation_Forall.
      * symmetry. apply insert_by_Permutation.
      * constructor; assumption.
Qed.

Lemma sort_by_sorted (l : list A) :
  StronglySorted (fun a b => before a b = true) (sort_by before l).
Proof.
  induction l as [| x l IH]; simpl; [constructor |].
  apply insert_by_sorted. exact IH.
Qed.

Lemma sort_by_length (l : list A) : length (sort_by before l) = length l.
Proof. apply Permutation_length, sort_by_Permutation. Qed.

End Sorting.

Lemma StronglySorted_firstn {A : Type} (R : A -> A -> Prop) (n : nat) (l : list A) :
  StronglySorted R l -> StronglySorted R (firstn n l).
Proof.
  intros H. revert n. induction H as [| x l Hl IH Hx]; intros [| n]; simpl;
    try constructor; auto.
  rewrite List.Forall_forall in *. intros y Hy. apply Hx.
  rewrite <- (firstn_skipn n l). apply in_or_app. auto.
Qed.

Lemma StronglySorted_split {A : Type} (R : A -> A -> Prop) (n : nat) (l : list A) :
  StronglySorted R l ->
  forall x y, In x (firstn n l) -> In y (skipn n l) -> R x y.
Proof.
  intros H. revert n. induction H as [| z l Hl IH Hz]; intros [| n] x y; simpl;
    try contradiction.
  intros [-> | Hx] Hy.
  - rewrite List.Forall_forall in Hz. apply Hz.
    rewrite <- (firstn_skipn n l). apply in_or_app. auto.
  - eauto.
Qed.

(** ** [get_chat_history] *)

(** No row comes before a row with a greater timestamp. *)
Definition newest_first (l : list message) : Prop :=
  StronglySorted
    (fun x y => String.leb (m_timestamp y) (m_timestamp x) = true) l.

Lemma newer_first_total (x y : message) :
  newer_first x y = true \/ newer_first y x = true.
Proof. unfold newer_first. apply or_comm, String.leb_total. Qed.

Lemma newer_first_trans (x y z : message) :
  newer_first x y = true -> newer_first y z = true -> newer_first x z = true.
Proof. unfold newer_first. intros H1 H2. eapply string_leb_trans; eauto. Qed.

Lemma ordered_messages_newest_first (l : list message) :
  newest_first (sort_by newer_first l).
Proof.
  apply (sort_by_sorted newer_first newer_first_total newer_first_trans).
Qed.

(** Rows in TEXT order of their timestamps are in the order of the instants
    the engine wrote them at, latest first. *)
Lemma newest_first_instants (l : list message) (ts : list datetime) :
  Forall2 written_at l ts -> newest_first l ->
  StronglySorted (fun a b => instant b <= instant a) ts.
Proof.
  unfold newest_first.
  induction 1 as [| r t l ts [Hp Hr] Hl IH]; intros Hs; [constructor |].
  apply StronglySorted_inv in Hs as [Hs Hall].
  constructor; [apply IH; exact Hs |].
  clear IH Hs. induction Hl as [| r' t' l ts [Hp' Hr'] Hl IH];
    [constructor |].
  apply List.Forall_cons_iff in Hall as [Hrr' Hall].
  constructor; [| apply IH; exact Hall].
  rewrite Hr, Hr' in Hrr'. apply CURRENT_TIMESTAMP_leb in Hrr'; assumption.
Qed.



(** *** Bound integers *)

Lemma bind_int_Ok (n : Z) : MIN_INT64 <= n <= MAX_INT64 -> bind_int n = Ok n.
Proof.
  intros H. unfold bind_int, int64.
  destruct (Z.leb_spec MIN_INT64 n), (Z.leb_spec n MAX_INT64); simpl;
    try lia; reflexivity.
Qed.


Lemma bind_int_inv (n m : Z) :
  bind_int n = Ok m -> m = n /\ MIN_INT64 <= n <= MAX_INT64.
Proof.
  unfold bind_int, int64.
  destruct (Z.leb_spec MIN_INT64 n), (Z.leb_spec n MAX_INT64); simpl;
    try discriminate.
  intros [= <-]. lia.
Qed.

Lemma get_chat_history_Ok (db : database) (limit : Z) :
  MIN_INT64 <= limit <= MAX_INT64 ->
  get_chat_history db limit = Ok (select_messages db limit).
Proof.
  intros H. unfold get_chat_history. rewrite (bind_int_Ok _ H). reflexivity.
Qed.


Lemma get_chat_history_inv (db : database) (limit : Z) (history : list message) :
  get_chat_history db limit = Ok history ->
  history = select_messages db limit /\ MIN_INT64 <= limit <= MAX_INT64.
Proof.
  unfold get_chat_history. intros H.
  apply bind_Ok in H as (n & Hn & [= <-]).
  apply bind_int_inv in Hn as [-> Hn]. auto.
Qed.

Lemma get_chat_history_default (db : database) :
  get_chat_history db default_limit = Ok (select_messages db default_limit).
Proof. reflexivity. Qed.

(** C3, as stated, fails: a limit of [2^63] is not negative, yet the call
    does not return rows: the driver refuses to bind it and raises
    [OverflowError]. *)
Lemma get_chat_history_limit_overflow :
  0 <= 2 ^ 63 /\
  get_chat_history Examples.store (2 ^ 63) = Raise integer_overflow /\
  exn_class integer_overflow = OverflowError.
Proof. split; [lia | split; reflexivity]. Qed.


(** ** [clear_history] *)

(** C5: [clear_history()] leaves no row in [messages] and leaves the
    analytics table as it was; a call of [get_chat_history()] after it, with
    the default or any other limit the driver accepts, returns the empty
    sequence. *)
Theorem clear_history_messages_only (db : database) :
  rows (messages (clear_history db)) = [] /\
  analytics_messages (clear_history db) = analytics_messages db /\
  get_analytics_history (clear_history db) = get_analytics_history db /\
  get_chat_history (clear_history db) default_limit = Ok [] /\
  (forall limit, MIN_INT64 <= limit <= MAX_INT64 ->
                 get_chat_history (clear_history db) limit = Ok []).
Proof.
  assert (H : forall limit, MIN_INT64 <= limit <= MAX_INT64 ->
                            get_chat_history (clear_history db) limit = Ok []).
  { intros limit Hfit. rewrite (get_chat_history_Ok _ _ Hfit).
    unfold select_messages, sql_limit. simpl.
    destruct (limit <? 0); [reflexivity | rewrite firstn_nil; reflexivity]. }
  repeat split; auto.
Qed.


(** C10, as stated, fails: a limit below [-2^63] is negative, yet the call
    returns no rows at all: the driver refuses to bind it and raises
    [OverflowError]. *)
Lemma get_chat_history_negative_overflow :
  - 2 ^ 63 - 1 < 0 /\
  get_chat_history Examples.store (- 2 ^ 63 - 1) = Raise integer_overflow /\
  exn_class integer_overflow = OverflowError.
Proof. split; [lia | split; reflexivity]. Qed.



(** ** Row identifiers *)

Lemma fold_left_max_le (ids : list Z) (i : Z) : i <= fold_left Z.max ids i.
Proof.
  revert i. induction ids as [| j ids IH]; intros i; simpl; [lia |].
  specialize (IH (Z.max i j)). lia.
Qed.

Lemma fold_left_max_ge (ids : list Z) (i j : Z) :
  In j ids -> j <= fold_left Z.max ids i.
Proof.
  revert i. induction ids as [| k ids IH]; intros i; simpl; [contradiction |].
  intros [-> | Hj]; [| auto].
  pose proof (fold_left_max_le ids (Z.max i j)). lia.
Qed.

Lemma fold_left_max_bound (ids : list Z) (i b : Z) :
  i <= b -> (forall j, In j ids -> j <= b) -> fold_left Z.max ids i <= b.
Proof.
  revert i. induction ids as [| k ids IH]; intros i Hi Hb; simpl; [exact Hi |].
  apply IH.
  - specialize (Hb k (or_introl eq_refl)). lia.
  - intros j Hj. apply Hb. right. exact Hj.
Qed.

(** A new rowid is above the recorded sequence and above every rowid in the
    table. *)
Lemma new_rowid_above (ids : list Z) (seq i : Z) :
  new_rowid ids seq = Ok i ->
  seq < i /\ (forall j, In j ids -> j < i) /\ seq <> MAX_ROWID.
Proof.
  unfold new_rowid, max_rowid.
  destruct ids as [| k ids].
  - destruct (Z.eqb_spec seq MAX_ROWID); [discriminate |].
    intros [= <-]. split; [lia |]. split; [contradiction | assumption].
  - destruct (Z.leb_spec MAX_ROWID (fold_left Z.max ids k)); [discriminate |].
    destruct (Z.eqb_spec seq MAX_ROWID); [discriminate |].
    intros [= <-]. split; [lia |]. split; [| assumption].
    intros j [<- | Hj].
    + pose proof (fold_left_max_le ids k). lia.
    + pose proof (fold_left_max_ge ids k j Hj). lia.
Qed.

(** While the sequence has room, and bounds the rowids of the table, the new
    rowid is the next one. *)
Lemma new_rowid_next (ids : list Z) (seq : Z) :
  0 <= seq < MAX_ROWID -> (forall j, In j ids -> j <= seq) ->
  new_rowid ids seq = Ok (seq + 1).
Proof.
  intros Hseq Hids. unfold new_rowid, max_rowid.
  destruct ids as [| k ids].
  - destruct (Z.eqb_spec seq MAX_ROWID); [lia |]. f_equal. lia.
  - assert (Hmax : fold_left Z.max ids k <= seq).
    { apply fold_left_max_bound; [apply Hids; left; reflexivity |].
      intros j Hj. apply Hids. right. exact Hj. }
    destruct (Z.leb_spec MAX_ROWID (fold_left Z.max ids k)); [lia |].
    destruct (Z.eqb_spec seq MAX_ROWID); [lia |]. f_equal. lia.
Qed.

(** The invariant of an AUTOINCREMENT table: rowids increase along the table
    and none exceeds the recorded sequence. *)
Definition table_ok (ids : list Z) (seq : Z) : Prop :=
  StronglySorted Z.lt ids /\ (forall j, In j ids -> j <= seq) /\
  0 <= seq <= MAX_ROWID.

Definition well_formed (db : database) : Prop :=
  table_ok (map m_id (rows (messages db))) (sequence (messages db)) /\
  table_ok (map a_id (rows (analytics_messages db)))
           (sequence (analytics_messages db)).

Lemma StronglySorted_snoc (ids : list Z) (i : Z) :
  StronglySorted Z.lt ids -> (forall j, In j ids -> j < i) ->
  StronglySorted Z.lt (ids ++ [i])%list.
Proof.
  induction 1 as [| k ids Hs IH Hk]; intros Hi; simpl.
  - repeat constructor.
  - constructor.
    + apply IH. intros j Hj. apply Hi. right. exact Hj.
    + apply Forall_app. split; [exact Hk |].
      constructor; [apply Hi; left; reflexivity | constructor].
Qed.

(** In a table that satisfies the invariant an insertion succeeds unless the
    sequence is exhausted, and takes the rowid after the sequence. *)
Lemma new_rowid_table_ok (ids : list Z) (seq i : Z) :
  table_ok ids seq -> new_rowid ids seq = Ok i ->
  i = seq + 1 /\ seq < MAX_ROWID.
Proof.
  intros (_ & Hb & H0) Hnew.
  pose proof (new_rowid_above _ _ _ Hnew) as (_ & _ & Hne).
  assert (Hroom : 0 <= seq < MAX_ROWID) by lia.
  rewrite (new_rowid_next ids seq Hroom Hb) in Hnew.
  injection Hnew as <-. lia.
Qed.

Lemma table_ok_insert (ids : list Z) (seq i : Z) :
  table_ok ids seq -> new_rowid ids seq = Ok i -> table_ok (ids ++ [i])%list i.
Proof.
  intros Hok Hnew.
  pose proof (new_rowid_table_ok _ _ _ Hok Hnew) as [-> Hroom].
  destruct Hok as (Hs & Hb & H0).
  apply new_rowid_above in Hnew as (Hseq & Hids & _).
  split; [apply StronglySorted_snoc; assumption |].
  split; [| lia].
  intros j Hj. apply in_app_or in Hj as [Hj | [<- | []]]; [| lia].
  specialize (Hids j Hj). lia.
Qed.

Lemma table_ok_empty (seq : Z) : 0 <= seq <= MAX_ROWID -> table_ok [] seq.
Proof. intros H. split; [constructor |]. split; [contradiction | exact H]. Qed.

Lemma well_formed_empty : well_formed empty_database.
Proof. split; apply table_ok_empty; simpl; unfold MAX_ROWID; lia. Qed.

(** The row written by one event: the caller's four values, and the engine's
    timestamp of that moment. *)
Definition wrote (event : datetime * command) (r : message) : Prop :=
  match event with
  | (now, SaveMessage model user_message ai_response tokens_used) =>
      m_model r = model /\ m_user_message r = user_message /\
      m_ai_response r = ai_response /\ m_tokens_used r = tokens_used /\
      m_timestamp r = CURRENT_TIMESTAMP now
  | _ => False
  end.

(** The calls of [save_message] whose values the driver binds: the token
    count fits in 64 bits. *)
Definition is_saved (event : datetime * command) : bool :=
  match event with
  | (_, SaveMessage _ _ _ tokens_used) => int64 tokens_used
  | _ => false
  end.

Lemma new_message_cases db now model user_message ai_response tokens_used :
  (int64 tokens_used = false /\
   new_message db now model user_message ai_response tokens_used
   = Raise integer_overflow) \/
  (int64 tokens_used = true /\
   new_message db now model user_message ai_response tokens_used
   = (i ← new_rowid (map m_id (rows (messages db))) (sequence (messages db));
      Ok {| m_id := i; m_model := model; m_user_message := user_message;
            m_ai_response := ai_response;
            m_timestamp := CURRENT_TIMESTAMP now;
            m_tokens_used := tokens_used |})).
Proof.
  unfold new_message, bind_int.
  destruct (int64 tokens_used); [right | left]; split; reflexivity.
Qed.

(** A [save_message] step grows the table by the row of [new_message]. *)
Lemma step_save_message db now model user_message ai_response tokens_used :
  step db now (SaveMessage model user_message ai_response tokens_used)
  = match new_message db now model user_message ai_response tokens_used with
    | Ok r => (append_message db r, [r])
    | Raise _ => (db, [])
    end.
Proof.
  unfold step, save_message.
  destruct (new_message _ _ _ _ _ _) as [r | e]; simpl; [| reflexivity].
  rewrite skipn_app, skipn_all, Nat.sub_diag. reflexivity.
Qed.

Lemma save_analytics_inv db timestamp model message_length response_time
    tokens_used db' :
  save_analytics db timestamp model message_length response_time tokens_used
  = Ok db' ->
  exists i,
    new_rowid (map a_id (rows (analytics_messages db)))
              (sequence (analytics_messages db)) = Ok i /\
    int64 message_length = true /\ int64 tokens_used = true /\
    db' = {| messages := messages db;
             analytics_messages :=
               {| rows := rows (analytics_messages db)
                          ++ [{| a_id := i; a_timestamp := timestamp;
                                 a_model := model;
                                 a_message_length := message_length;
                                 a_response_time := stored_real response_time;
                                 a_tokens_used := tokens_used |}];
                  sequence := i |} |}.
Proof.
  unfold save_analytics, bind_int. intros H.
  destruct (int64 message_length); [| discriminate].
  destruct (int64 tokens_used); [| discriminate].
  simpl in H. apply bind_Ok in H as (i & Hi & [= <-]).
  exists i. auto.
Qed.

Lemma step_spec (db : database) (now : datetime) (c : command) :
  let db' := fst (step db now c) in
  let written := snd (step db now c) in
  sequence (messages db) <= sequence (messages db') /\
  sequence (analytics_messages db) <= sequence (analytics_messages db') /\
  (well_formed db -> well_formed db') /\
  (written = [] \/
   exists r, written = [r] /\ wrote (now, c) r /\ is_saved (now, c) = true /\
             sequence (messages db) < m_id r /\
             m_id r = sequence (messages db') /\
             forall r0, In r0 (rows (messages db)) -> m_id r0 < m_id r).
Proof.
  destruct c as [model user ai tokens | ts model len time tokens |].
  - rewrite step_save_message.
    destruct (new_message_cases db now model user ai tokens)
      as [[Hfit ->] | [Hfit ->]]; simpl.
    { split; [lia |]. split; [lia |]. split; [auto | left; reflexivity]. }
    destruct (new_rowid _ _) as [i | e] eqn:Hnew; simpl.
    + pose proof (new_rowid_above _ _ _ Hnew) as (Hseq & Hids & _).
      split; [lia |]. split; [lia |]. split.
      * intros [Hm Ha]. split; [| exact Ha]. simpl.
        rewrite map_app. simpl. eapply table_ok_insert; eauto.
      * right. eexists. split; [reflexivity |]. simpl.
        repeat split; auto.
        intros r0 Hr0. apply Hids. apply in_map. exact Hr0.
    + split; [lia |]. split; [lia |]. split; [auto | left; reflexivity].
  - simpl.
    destruct (save_analytics _ _ _ _ _ _) as [db' | e] eqn:Hsave; simpl.
    + apply save_analytics_inv in Hsave as (i & Hnew & _ & _ & ->). simpl.
      pose proof (new_rowid_above _ _ _ Hnew) as (Hseq & _).
      split; [lia |]. split; [lia |]. split; [| left; reflexivity].
      intros [Hm Ha]. split; [exact Hm |]. simpl.
      rewrite map_app. simpl. eapply table_ok_insert; eauto.
    + split; [lia |]. split; [lia |]. split; [auto | left; reflexivity].
  - simpl. split; [lia |]. split; [lia |]. split; [| left; reflexivity].
    intros [(_ & _ & H0) Ha]. split; [| exact Ha]. simpl.
    apply table_ok_empty. exact H0.
Qed.

Lemma run_cons (db : database) (now : datetime) (c : command)
    (history : list (datetime * command)) :
  run db ((now, c) :: history) =
  (fst (run (fst (step db now c)) history),
   (snd (step db now c) ++ snd (run (fst (step db now c)) history))%list).
Proof.
  cbn [run]. destruct (step db now c) as [db1 w]. cbn [fst snd].
  destruct (run db1 history) as [db2 w']. reflexivity.
Qed.

Lemma run_well_formed (db : database) (history : list (datetime * command)) :
  well_formed db -> well_formed (fst (run db history)).
Proof.
  revert db. induction history as [| [now c] history IH]; intros db Hwf.
  - exact Hwf.
  - rewrite run_cons. simpl. apply IH.
    apply (step_spec db now c). exact Hwf.
Qed.

(** No step lowers the sequence of a table. *)
Lemma run_sequences (db : database) (history : list (datetime * command)) :
  sequence (messages db) <= sequence (messages (fst (run db history))) /\
  sequence (analytics_messages db)
  <= sequence (analytics_messages (fst (run db history))).
Proof.
  revert db. induction history as [| [now c] history IH]; intros db.
  - simpl. lia.
  - rewrite run_cons. cbn [fst].
    destruct (step_spec db now c) as (Hm & Ha & _).
    destruct (IH (fst (step db now c))) as [Hm' Ha']. lia.
Qed.

(** Along a history the rows written have increasing rowids, all above the
    sequence recorded at its start, and each comes from a [SaveMessage] event
    of the history, in the order of the events. *)
Lemma run_written (db : database) (history : list (datetime * command)) :
  StronglySorted Z.lt (map m_id (snd (run db history))) /\
  (forall r, In r (snd (run db history)) ->
             sequence (messages db) < m_id r
             /\ m_id r <= sequence (messages (fst (run db history)))) /\
  (exists events, sublist events history /\
                  Forall2 wrote events (snd (run db history))).
Proof.
  revert db. induction history as [| [now c] history IH]; intros db.
  - simpl. split; [constructor |].
    split; [contradiction |]. exists []. split; constructor.
  - rewrite run_cons.
    destruct (step_spec db now c) as (Hseq & _ & _ & Hw).
    destruct (IH (fst (step db now c))) as (Hs & Hb & events & Hsub & Hev).
    pose proof (proj1 (run_sequences (fst (step db now c)) history)) as Hseq'.
    cbn [fst snd].
    destruct Hw as [-> | (r & -> & Hwrote & _ & Hlt & Hid & _)]; simpl.
    + split; [exact Hs |]. split.
      * intros r Hr. specialize (Hb r Hr). lia.
      * exists events. split; [apply sublist_cons; exact Hsub | exact Hev].
    + split.
      * constructor; [exact Hs |].
        apply List.Forall_forall. intros i Hi.
        apply in_map_iff in Hi as (r' & <- & Hr'). specialize (Hb r' Hr'). lia.
      * split.
        -- intros r' [<- | Hr']; [lia |]. specialize (Hb r' Hr'). lia.
        -- exists ((now, c) :: events).
           split; [apply sublist_skip; exact Hsub |].
           constructor; assumption.
Qed.

Lemma StronglySorted_lt_NoDup (ids : list Z) : StronglySorted Z.lt ids -> NoDup ids.
Proof.
  induction 1 as [| i ids Hs IH Hi]; constructor; [| exact IH].
  intros Hin. rewrite List.Forall_forall in Hi.
  apply list_elem_of_In in Hin. specialize (Hi i Hin). lia.
Qed.

(** In a table that satisfies the invariant, a call the driver accepts
    writes its row while a rowid is left, and the row gets the rowid after
    the sequence. *)
Lemma new_message_next db now model user_message ai_response tokens_used :
  well_formed db -> int64 tokens_used = true ->
  sequence (messages db) < MAX_ROWID ->
  new_message db now model user_message ai_response tokens_used
  = Ok {| m_id := sequence (messages db) + 1; m_model := model;
          m_user_message := user_message; m_ai_response := ai_response;
          m_timestamp := CURRENT_TIMESTAMP now;
          m_tokens_used := tokens_used |}.
Proof.
  intros [(_ & Hids & Hseq) _] Hfit Hroom.
  destruct (new_message_cases db now model user_message ai_response tokens_used)
    as [[Hno _] | [_ ->]]; [congruence |].
  assert (H : 0 <= sequence (messages db) < MAX_ROWID) by lia.
  rewrite (new_rowid_next _ _ H Hids). reflexivity.
Qed.

(** While rowids are left, no accepted insertion fails: every [SaveMessage]
    event of the history whose values the driver binds writes its row. *)
Lemma run_writes_saved (db : database) (history : list (datetime * command)) :
  well_formed db ->
  sequence (messages db)
    + Z.of_nat (length (List.filter is_saved history)) <= MAX_ROWID ->
  Forall2 wrote (List.filter is_saved history) (snd (run db history)) /\
  map m_id (snd (run db history))
  = map (fun k => sequence (messages db) + Z.of_nat k)
        (seq 1 (length (List.filter is_saved history))).
Proof.
  revert db. induction history as [| [now c] history IH]; intros db Hwf Hroom.
  - split; [constructor | reflexivity].
  - rewrite run_cons. cbn [snd].
    pose proof (proj1 (proj2 (proj2 (step_spec db now c))) Hwf) as Hwf'.
    destruct (is_saved (now, c)) eqn:Hc.
    + destruct c as [model user ai tokens | |]; try discriminate.
      cbn [List.filter] in Hroom |- *. rewrite Hc in Hroom |- *.
      cbn [length] in Hroom |- *.
      revert Hwf'. rewrite step_save_message.
      rewrite (new_message_next db now model user ai tokens Hwf Hc) by lia.
      cbn [fst snd app]. intros Hwf'.
      match type of Hwf' with well_formed ?db1 =>
        assert (Hroom' : sequence (messages db1)
                         + Z.of_nat (length (List.filter is_saved history))
                         <= MAX_ROWID) by (simpl; lia)
      end.
      destruct (IH _ Hwf' Hroom') as [Hall Hids].
      split.
      * constructor; [simpl; auto | exact Hall].
      * cbn [map seq]. rewrite Hids. simpl sequence. simpl m_id. f_equal.
        rewrite <- (seq_shift _ 1), map_map. apply map_ext. intros k. lia.
    + cbn [List.filter] in Hroom |- *. rewrite Hc in Hroom |- *.
      destruct (step_spec db now c) as (_ & _ & _ & Hw).
      assert (Hnone : snd (step db now c) = []).
      { destruct Hw as [H | (r & _ & _ & Hs & _)]; [exact H | congruence]. }
      assert (Hseq : sequence (messages (fst (step db now c)))
                     = sequence (messages db)).
      { destruct c as [model user ai tokens | ts model len time tokens |].
        - rewrite step_save_message.
          destruct (new_message_cases db now model user ai tokens)
            as [[_ ->] | [Hfit _]]; [reflexivity |].
          simpl in Hc. congruence.
        - simpl.
          destruct (save_analytics _ _ _ _ _ _) as [db' |] eqn:H;
            [| reflexivity].
          apply save_analytics_inv in H as (i & _ & _ & _ & ->). reflexivity.
        - reflexivity. }
      rewrite Hnone. cbn [app].
      rewrite <- Hseq in Hroom.
      destruct (IH _ Hwf' Hroom) as [Hall Hids].
      rewrite Hseq in Hids. auto.
Qed.

(** C4: in a store that satisfies the invariant of its tables, every call of
    [save_message] that returns has appended one row, with a rowid above the
    rowid of every row of the table and above the recorded sequence, with the
    engine's [CURRENT_TIMESTAMP] of the moment as timestamp and the caller's
    four arguments in the other columns; the caller passes no timestamp.
    Along every history of calls the rows written get rowids that are
    pairwise different and strictly increasing in the order of insertion,
    each above the rowid of every row inserted before it (the rows present at
    the start as well as those written or cleared on the way), so that no two
    rows of the table share a rowid; and while rowids are left, every call
    whose values the driver binds does write its row. *)
Theorem save_message_rowids_increase (db : database)
    (history : list (datetime * command)) :
  well_formed db ->
  (forall now model user_message ai_response tokens_used db',
     save_message db now model user_message ai_response tokens_used = Ok db' ->
     exists r,
       rows (messages db') = (rows (messages db) ++ [r])%list /\
       wrote (now, SaveMessage model user_message ai_response tokens_used) r /\
       (forall r0, In r0 (rows (messages db)) -> m_id r0 < m_id r) /\
       sequence (messages db) < m_id r /\
       run db [(now, SaveMessage model user_message ai_response tokens_used)]
       = (db', [r])) /\
  StronglySorted Z.lt (map m_id (snd (run db history))) /\
  NoDup (map m_id (snd (run db history))) /\
  (forall r0 r, In r0 (rows (messages db)) -> In r (snd (run db history)) ->
                m_id r0 < m_id r) /\
  NoDup (map m_id (rows (messages (fst (run db history))))) /\
  (forall r, In r (rows (messages (fst (run db history)))) ->
             m_id r <= sequence (messages (fst (run db history)))) /\
  (exists events, sublist events history /\
                  Forall2 wrote events (snd (run db history))) /\
  (sequence (messages db)
     + Z.of_nat (length (List.filter is_saved history)) <= MAX_ROWID ->
   Forall2 wrote (List.filter is_saved history) (snd (run db history))).
Proof.
  intros Hwf.
  destruct (run_written db history) as (Hs & Hb & Hev).
  destruct (run_well_formed db history Hwf) as [(Hsorted & Hids' & _) _].
  split.
  { intros now model user ai tokens db' Hsave.
    pose proof (step_spec db now (SaveMessage model user ai tokens))
      as (_ & _ & _ & Hw).
    cbn [run]. revert Hw. cbn [step]. rewrite Hsave. cbn [fst snd].
    unfold save_message in Hsave.
    apply bind_Ok in Hsave as (r & Hr & [= <-]). simpl.
    rewrite skipn_app, skipn_all, Nat.sub_diag. simpl.
    intros [Hw | (r' & [= <-] & Hwrote & _ & Hseq & _ & Hids)]; [discriminate |].
    exists r. auto. }
  split; [exact Hs |].
  split; [apply StronglySorted_lt_NoDup; exact Hs |].
  split.
  { intros r0 r Hr0 Hr. destruct Hwf as [(_ & Hids & _) _].
    specialize (Hids (m_id r0) (in_map m_id _ _ Hr0)).
    specialize (Hb r Hr). lia. }
  split; [apply StronglySorted_lt_NoDup; exact Hsorted |].
  split; [intros r Hr; apply Hids', in_map, Hr |].
  split; [exact Hev |].
  intros Hroom. apply (run_writes_saved db history Hwf Hroom).
Qed.

(** C4 on the example history, from an empty database. *)
Lemma save_message_rowids_example :
  StronglySorted Z.lt (map m_id (snd (run empty_database Examples.chat))) /\
  map m_id (snd (run empty_database Examples.chat)) = [1; 2; 3] /\
  map m_timestamp (snd (run empty_database Examples.chat))
  = ["2025-05-17 09:30:01"; "2025-05-17 09:30:04"; "2025-05-17 09:30:09"].
Proof.
  split.
  - apply (save_message_rowids_increase empty_database Examples.chat).
    exact well_formed_empty.
  - split; reflexivity.
Defined.

(** ** The history in the engine's time *)

(** Every row of [messages] carries a timestamp written by the engine. *)
Definition stamped (db : database) : Prop :=
  Forall (fun r => exists t, written_at r t) (rows (messages db)).

Lemma step_stamped (db : database) (now : datetime) (c : command) :
  printable now -> stamped db -> stamped (fst (step db now c)).
Proof.
  intros Hnow Hdb. unfold stamped in *.
  destruct c as [model user ai tokens | ts model len time tokens |].
  - rewrite step_save_message.
    destruct (new_message_cases db now model user ai tokens)
      as [[_ ->] | [_ ->]]; [exact Hdb |].
    destruct (new_rowid _ _) as [i | e]; simpl; [| exact Hdb].
    apply Forall_app. split; [exact Hdb |].
    constructor; [| constructor]. exists now. split; [exact Hnow | reflexivity].
  - simpl. destruct (save_analytics _ _ _ _ _ _) as [db' | e] eqn:H;
      [| exact Hdb].
    apply save_analytics_inv in H as (i & _ & _ & _ & ->). exact Hdb.
  - constructor.
Qed.

Lemma run_stamped (db : database) (history : list (datetime * command)) :
  Forall (fun event => printable (fst event)) history ->
  stamped db -> stamped (fst (run db history)).
Proof.
  revert db. induction history as [| [now c] history IH]; intros db Hh Hdb.
  - exact Hdb.
  - apply List.Forall_cons_iff in Hh as [Hnow Hh].
    rewrite run_cons. cbn [fst]. apply IH; [exact Hh |].
    apply step_stamped; assumption.
Qed.

Lemma select_messages_rows (db : database) (n : Z) (r : message) :
  In r (select_messages db n) -> In r (rows (messages db)).
Proof.
  unfold select_messages, sql_limit. intros Hr.
  apply (Permutation_in r (sort_by_Permutation newer_first (rows (messages db)))).
  destruct (n <? 0); [exact Hr |].
  rewrite <- (firstn_skipn (Z.to_nat n)). apply in_or_app. left. exact Hr.
Qed.

Lemma select_messages_newest_first (db : database) (n : Z) :
  newest_first (select_messages db n).
Proof.
  unfold select_messages, sql_limit.
  destruct (n <? 0); [apply ordered_messages_newest_first |].
  apply StronglySorted_firstn, ordered_messages_newest_first.
Qed.

Lemma Forall_exists_Forall2 {A B : Type} (R : A -> B -> Prop) (l : list A) :
  Forall (fun a => exists b, R a b) l -> exists bs, Forall2 R l bs.
Proof.
  induction 1 as [| a l [b Hb] _ [bs Hbs]].
  - exists []. constructor.
  - exists (b :: bs). constructor; assumption.
Qed.

(** The text order of the timestamps the engine writes is the order of its
    clock readings: in a store whose timestamps the engine wrote,
    [get_chat_history] lists the rows by the second of their insertion, a
    later second before an earlier one, whatever the limit. *)
Theorem get_chat_history_by_second (db : database) (limit : Z)
    (history : list message) :
  stamped db ->
  get_chat_history db limit = Ok history ->
  exists ts, Forall2 written_at history ts /\
             StronglySorted (fun a b => instant b <= instant a) ts.
Proof.
  intros Hdb Hget. apply get_chat_history_inv in Hget as [-> _].
  assert (H : Forall (fun r => exists t, written_at r t)
                     (select_messages db limit)).
  { apply List.Forall_forall. intros r Hr.
    unfold stamped in Hdb. rewrite List.Forall_forall in Hdb.
    apply Hdb. eapply select_messages_rows; eauto. }
  apply Forall_exists_Forall2 in H as [ts Hts].
  exists ts. split; [exact Hts |].
  eapply newest_first_instants; [exact Hts |].
  apply select_messages_newest_first.
Qed.

(** ** [get_statistics] *)

Lemma py_div_returns (a b : Q) : ~ (b == 0)%Q -> py_div a b = Ok (a / b)%Q.
Proof.
  intros Hb. unfold py_div.
  destruct (Qeq_bool b 0) eqn:E; [| reflexivity].
  apply Qeq_bool_iff in E. contradiction.
Qed.

Lemma average_tokens_returns (history : list sample) :
  returns (average_tokens history).
Proof.
  destruct history as [| s history]; [eexists; reflexivity |].
  unfold average_tokens. rewrite py_div_returns; [eexists; reflexivity |].
  unfold Qeq, inject_Z. simpl. lia.
Qed.

Lemma rate_per_minute_returns elapsed_seconds (history : list sample) :
  returns (rate_per_minute elapsed_seconds history).
Proof.
  unfold rate_per_minute.
  destruct history as [| first [| second history]]; try (eexists; reflexivity).
  destruct (Qeq_bool _ 0) eqn:E; [eexists; reflexivity |].
  rewrite py_div_returns; [eexists; reflexivity |].
  intros H. apply Qeq_bool_iff in H. congruence.
Qed.

(** C7: [get_statistics()] returns for every state of the store: no division
    by zero is reached.  With no analytics record all four fields are zero;
    with exactly one record [messages_per_minute] is 0 and
    [tokens_per_message] is the token count of that record. *)
Theorem get_statistics_small (elapsed_seconds : string -> string -> Q)
    (db : database) :
  returns (get_statistics elapsed_seconds db) /\
  (rows (analytics_messages db) = [] ->
   get_statistics elapsed_seconds db
   = Ok {| total_messages := 0; total_tokens := 0;
           tokens_per_message := 0; messages_per_minute := 0 |}) /\
  (forall r, rows (analytics_messages db) = [r] ->
     exists stats,
       get_statistics elapsed_seconds db = Ok stats /\
       total_messages stats = 1 /\
       total_tokens stats = a_tokens_used r /\
       messages_per_minute stats = 0%Q /\
       (tokens_per_message stats == inject_Z (a_tokens_used r))%Q).
Proof.
  split; [| split].
  - unfold get_statistics.
    destruct (average_tokens_returns (get_analytics_history db)) as [a ->].
    destruct (rate_per_minute_returns elapsed_seconds (get_analytics_history db))
      as [m ->].
    eexists. reflexivity.
  - unfold get_statistics, get_analytics_history. intros ->. reflexivity.
  - unfold get_statistics, get_analytics_history. intros r ->. simpl.
    eexists. split; [reflexivity |]. simpl.
    repeat split; try reflexivity; try lia.
    unfold Qeq, Qdiv, Qmult, Qinv, inject_Z. simpl. lia.
Qed.

(** C7 on the example store, which holds one analytics record. *)
Lemma get_statistics_one_record :
  exists stats,
    get_statistics (fun _ _ => 0%Q) Examples.store = Ok stats /\
    messages_per_minute stats = 0%Q /\
    (tokens_per_message stats == 5)%Q.
Proof.
  destruct (proj2 (proj2 (get_statistics_small (fun _ _ => 0%Q) Examples.store))
              _ eq_refl) as (stats & H & _ & _ & H1 & H2).
  exists stats. split; [exact H |]. split; [exact H1 | exact H2].
Defined.

(** ** The [.2f] format *)

Definition is_digit (c : ascii) : bool :=
  let n := nat_of_ascii c in ((48 <=? n) && (n <=? 57))%nat.

Fixpoint digits_only (s : string) : bool :=
  match s with
  | EmptyString => true
  | String c s' => is_digit c && digits_only s'
  end.

(** An optional minus sign, at least one digit, a point and two digits. *)
Definition two_decimals (s : string) : Prop :=
  exists (sgn int_part : string) (d1 d2 : ascii),
    s = sgn +:+ int_part +:+ "." +:+ String d1 (String d2 "") /\
    (sgn = "" \/ sgn = "-") /\
    int_part <> "" /\ digits_only int_part = true /\
    is_digit d1 = true /\ is_digit d2 = true.

(** [k] hundredths are within half a hundredth of [m * 2^e]. *)
Definition nearest_hundredths (k : Z) (m : positive) (e : Z) : Prop :=
  2 * Z.abs (k * 2 ^ Z.max 0 (- e) - 100 * Z.pos m * 2 ^ Z.max 0 e)
  <= 2 ^ Z.max 0 (- e).

Lemma string_of_uint_digits (d : Decimal.uint) :
  digits_only (NilEmpty.string_of_uint d) = true.
Proof. induction d; simpl; auto. Qed.

Lemma string_of_Z_digits (z : Z) :
  0 <= z -> string_of_Z z <> "" /\ digits_only (string_of_Z z) = true.
Proof.
  intros Hz. unfold string_of_Z.
  destruct z as [| p | p]; [split; [discriminate | reflexivity] | | lia].
  simpl. unfold NilZero.string_of_uint.
  pose proof (string_of_uint_digits (Pos.to_uint p)) as Hd.
  destruct (Pos.to_uint p); simpl in *;
    (split; [discriminate | first [reflexivity | exact Hd]]).
Qed.

Lemma digit_is_digit (d : Z) :
  0 <= d <= 9 -> exists c, digit d = String c "" /\ is_digit c = true.
Proof.
  intros Hd. unfold digit. eexists. split; [reflexivity |].
  assert (H : d = 0 \/ d = 1 \/ d = 2 \/ d = 3 \/ d = 4 \/ d = 5 \/ d = 6
              \/ d = 7 \/ d = 8 \/ d = 9) by lia.
  repeat (destruct H as [-> | H]; [reflexivity |]). subst. reflexivity.
Qed.

Lemma fixed2_two_decimals (neg : bool) (k : Z) :
  0 <= k -> two_decimals (fixed2 neg k).
Proof.
  intros Hk. unfold fixed2.
  destruct (digit_is_digit (k / 10 mod 10)) as (d1 & -> & Hd1);
    [pose proof (Z.mod_pos_bound (k / 10) 10); lia |].
  destruct (digit_is_digit (k mod 10)) as (d2 & -> & Hd2);
    [pose proof (Z.mod_pos_bound k 10); lia |].
  destruct (string_of_Z_digits (k / 100)) as [Hne Hdig];
    [apply Z.div_pos; lia |].
  exists (if neg then "-" else ""), (string_of_Z (k / 100)), d1, d2.
  split; [reflexivity |].
  split; [destruct neg; auto |]. auto.
Qed.

Lemma round_half_even_nearest (num den : Z) :
  0 <= num -> 0 < den ->
  0 <= round_half_even num den /\
  2 * Z.abs (round_half_even num den * den - num) <= den.
Proof.
  intros Hnum Hden. unfold round_half_even.
  pose proof (Z.div_mod num den ltac:(lia)) as Hdm.
  pose proof (Z.mod_pos_bound num den Hden) as Hr.
  pose proof (Z.div_pos num den Hnum Hden) as Hq.
  set (q := num / den) in *. set (r := num mod den) in *.
  destruct (Z.compare_spec (2 * r) den) as [Heq | Hlt | Hgt].
  - destruct (Z.even q).
    + split; [lia |]. replace (q * den - num) with (- r) by lia. lia.
    + split; [lia |]. replace ((q + 1) * den - num) with (den - r) by lia. lia.
  - split; [lia |]. replace (q * den - num) with (- r) by lia. lia.
  - split; [lia |]. replace ((q + 1) * den - num) with (den - r) by lia. lia.
Qed.

Lemma hundredths_nearest (m : positive) (e : Z) :
  0 <= hundredths m e /\ nearest_hundredths (hundredths m e) m e.
Proof.
  unfold hundredths, nearest_hundredths.
  destruct (Z.leb_spec 0 e) as [He | He].
  - rewrite (Z.max_l 0 (- e)) by lia. rewrite (Z.max_r 0 e) by lia.
    pose proof (Z.pow_nonneg 2 e ltac:(lia)).
    split; [nia |].
    replace (Z.pos m * 2 ^ e * 100 * 2 ^ 0 - 100 * Z.pos m * 2 ^ e) with 0
      by (rewrite Z.pow_0_r; ring).
    simpl. lia.
  - rewrite (Z.max_r 0 (- e)) by lia. rewrite (Z.max_l 0 e) by lia.
    pose proof (Z.pow_pos_nonneg 2 (- e) ltac:(lia) ltac:(lia)) as Hpow.
    destruct (round_half_even_nearest (Z.pos m * 100) (2 ^ (- e))
                ltac:(lia) Hpow) as [H0 Hn].
    split; [exact H0 |].
    rewrite Z.pow_0_r.
    replace (100 * Z.pos m * 1) with (Z.pos m * 100) by ring. exact Hn.
Qed.

(** A finite float is printed with two decimals, as the hundredths nearest
    to its magnitude. *)
Lemma format_2f_finite (x : float) :
  is_finite x = true ->
  two_decimals (format_2f x) /\
  exists neg k,
    format_2f x = fixed2 neg k /\ 0 <= k /\
    (Prim2SF x = S754_zero neg /\ k = 0 \/
     exists m e, Prim2SF x = S754_finite neg m e /\ nearest_hundredths k m e).
Proof.
  unfold is_finite, format_2f.
  destruct (Prim2SF x) as [s | s | | s m e]; try discriminate; intros _.
  - split; [apply fixed2_two_decimals; lia |].
    exists s, 0. split; [reflexivity |]. split; [lia | left; auto].
  - destruct (hundredths_nearest m e) as [H0 Hn].
    split; [apply fixed2_two_decimals; exact H0 |].
    exists s, (hundredths m e). split; [reflexivity |].
    split; [exact H0 | right; eauto].
Qed.

(** ** [get_balance] *)

Definition credits_request (net : network) (self : OpenRouterClient)
  : result Response :=
  get net (base_url self +:+ "/credits") (headers self).

(** What [get_balance] does with a decoded body. *)
Definition balance_of_body (body : pyvalue) : result string :=
  data ← py_get body "data" (PDict []);
  credits ← py_get data "total_credits" (PInt 0);
  usage ← py_get data "total_usage" (PInt 0);
  balance ← py_sub credits usage;
  text ← py_format_2f balance;
  Ok ("$" +:+ text).

(** The request, the status check, the decoding of the body or the
    computation on it fails. *)
Inductive credits_failure (net : network) (self : OpenRouterClient) : Prop :=
| credits_request_fails e :
    credits_request net self = Raise e -> credits_failure net self
| credits_status_fails resp :
    credits_request net self = Ok resp -> error_status resp ->
    credits_failure net self
| credits_decoding_fails resp e :
    credits_request net self = Ok resp -> ~ error_status resp ->
    json resp = Raise e -> credits_failure net self
| credits_reading_fails resp body e :
    credits_request net self = Ok resp -> ~ error_status resp ->
    json resp = Ok body -> balance_of_body body = Raise e ->
    credits_failure net self.

Lemma fetch_balance_body net self resp body :
  credits_request net self = Ok resp -> ~ error_status resp ->
  json resp = Ok body ->
  fetch_balance net self = balance_of_body body.
Proof.
  unfold credits_request, fetch_balance. intros -> Hst Hjs. simpl.
  rewrite (raise_for_status_pass _ Hst). simpl. rewrite Hjs. reflexivity.
Qed.

Lemma credits_failure_raises net self :
  credits_failure net self -> exists e, fetch_balance net self = Raise e.
Proof.
  intros [e H | resp H1 H2 | resp e H1 H2 H3 | resp body e H1 H2 H3 H4].
  - unfold credits_request in H. unfold fetch_balance. rewrite H. simpl. eauto.
  - unfold credits_request in H1. unfold fetch_balance. rewrite H1. simpl.
    apply raise_for_status_error in H2 as (e & -> & _). simpl. eauto.
  - unfold credits_request in H1. unfold fetch_balance. rewrite H1. simpl.
    rewrite (raise_for_status_pass _ H2). simpl. rewrite H3. simpl. eauto.
  - rewrite (fetch_balance_body _ _ _ _ H1 H2 H3). eauto.
Qed.

(** [1e308] and [-1e308], as [json.loads] reads them. *)
Definition huge : float := 0x1.1ccf385ebc8ap+1023.

(** C6, as stated, fails: the answer [{data: {total_credits: 1e308,
    total_usage: -1e308}}] exposes both numbers, their difference overflows to
    infinity, and [get_balance] returns ["$inf"], which has no decimals and is
    not the failure string. *)
Lemma get_balance_infinite :
  get_balance
    (Examples.answering 200 "OK"
       (Ok (Examples.credits (PFloat huge) (PFloat (- huge)))))
    Examples.client
  = Ok "$inf".
Proof. vm_compute. reflexivity. Qed.

(** C6, amended: [get_balance] never raises.  When the credits endpoint
    answers with a status outside 400..599 and a body whose [total_credits]
    and [total_usage] are numbers, it returns ["$"] followed by their
    floating-point difference in the [.2f] format; when that difference is
    finite, this is a decimal with exactly two digits after the point, the
    hundredths nearest to the difference (for [{total_credits: 10,
    total_usage: 3.5}], ["$6.50"]).  When the request, the status check, the
    decoding or the computation fails, it returns the one failure string. *)
Theorem get_balance_format net self :
  returns (get_balance net self) /\
  (credits_failure net self -> get_balance net self = Ok balance_failure) /\
  (forall resp body data granted used difference x,
     credits_request net self = Ok resp -> ~ error_status resp ->
     json resp = Ok body ->
     py_get body "data" (PDict []) = Ok data ->
     py_get data "total_credits" (PInt 0) = Ok granted ->
     py_get data "total_usage" (PInt 0) = Ok used ->
     py_sub granted used = Ok difference ->
     number_as_float difference = Ok x ->
     get_balance net self = Ok ("$" +:+ format_2f x) /\
     (is_finite x = true ->
      two_decimals (format_2f x) /\
      exists neg k,
        format_2f x = fixed2 neg k /\ 0 <= k /\
        (Prim2SF x = S754_zero neg /\ k = 0 \/
         exists m e, Prim2SF x = S754_finite neg m e /\
                     nearest_hundredths k m e))) /\
  (forall resp,
     credits_request net self = Ok resp -> ~ error_status resp ->
     json resp = Ok (Examples.credits (PInt 10) (PFloat 3.5)) ->
     get_balance net self = Ok "$6.50") /\
  balance_failure = "Ошибка".
Proof.
  split; [apply try_except_returns |].
  split.
  { intros H. apply credits_failure_raises in H as [e H].
    unfold get_balance. rewrite H. reflexivity. }
  split.
  { intros resp body data granted used difference x
           Hreq Hst Hjs Hdata Hgranted Hused Hsub Hx.
    split; [| apply format_2f_finite].
    unfold get_balance.
    rewrite (fetch_balance_body _ _ _ _ Hreq Hst Hjs).
    unfold balance_of_body, py_format_2f.
    rewrite Hdata; simpl. rewrite Hgranted; simpl. rewrite Hused; simpl.
    rewrite Hsub; simpl. rewrite Hx. reflexivity. }
  split; [| reflexivity].
  intros resp Hreq Hst Hjs. unfold get_balance.
  rewrite (fetch_balance_body _ _ _ _ Hreq Hst Hjs). vm_compute. reflexivity.
Qed.

(** The amended C6 at a provider that answers [{data: {total_credits: 10,
    total_usage: 3.5}}]. *)
Lemma get_balance_six_fifty :
  get_balance
    (Examples.answering 200 "OK" (Ok (Examples.credits (PInt 10) (PFloat 3.5))))
    Examples.client
  = Ok "$6.50".
Proof.
  refine (proj1 (proj2 (proj2 (proj2
    (get_balance_format
       (Examples.answering 200 "OK"
          (Ok (Examples.credits (PInt 10) (PFloat 3.5))))
       Examples.client))))
    _ eq_refl _ eq_refl).
  unfold error_status. simpl. lia.
Defined.

(** * Further properties of the store *)

(** ** Reading back what was saved *)







(** In a store that satisfies the table invariant, a history never lists a
    row twice, and lists rows of the table only. *)
Theorem get_chat_history_distinct (db : database) (N : Z)
    (history : list message) :
  well_formed db ->
  get_chat_history db N = Ok history ->
  NoDup (map m_id history) /\
  forall r, In r history -> In r (rows (messages db)).
Proof.
  intros [(Hs & _) _] Hget.
  apply get_chat_history_inv in Hget as [-> _].
  split; [| intros r; apply select_messages_rows].
  unfold select_messages, sql_limit.
  set (sorted := sort_by newer_first (rows (messages db))).
  assert (Hnd : NoDup (map m_id sorted)).
  { apply NoDup_ListNoDup.
    apply (Permutation_NoDup (l := map m_id (rows (messages db)))).
    - apply Permutation_map, Permutation_sym, sort_by_Permutation.
    - apply NoDup_ListNoDup, StronglySorted_lt_NoDup, Hs. }
  destruct (N <? 0); [exact Hnd |].
  rewrite <- (firstn_skipn (Z.to_nat N) sorted), map_app in Hnd.
  apply NoDup_ListNoDup in Hnd. apply NoDup_ListNoDup.
  eapply NoDup_app_remove_r. exact Hnd.
Qed.

(** The theorem above on the example store. *)
Lemma get_chat_history_distinct_example :
  exists history,
    get_chat_history Examples.store default_limit = Ok history /\
    NoDup (map m_id history).
Proof.
  exists (select_messages Examples.store default_limit).
  split; [reflexivity |].
  apply (get_chat_history_distinct Examples.store default_limit).
  - apply run_well_formed, well_formed_empty.
  - reflexivity.
Defined.

Lemma printable_at_second (s : Z) : 0 <= s <= 99 -> printable (Examples.at_second s).
Proof. intros H. unfold printable. simpl. lia. Qed.

(** The example store is read back from the latest second of insertion to
    the earliest. *)
Lemma get_chat_history_by_second_example :
  exists history ts,
    get_chat_history Examples.store default_limit = Ok history /\
    Forall2 written_at history ts /\
    StronglySorted (fun a b => instant b <= instant a) ts.
Proof.
  exists (select_messages Examples.store default_limit).
  assert (H : exists ts,
             Forall2 written_at (select_messages Examples.store default_limit) ts /\
             StronglySorted (fun a b => instant b <= instant a) ts);
    [| destruct H as (ts & H1 & H2); exists ts; split; [reflexivity | auto]].
  apply (get_chat_history_by_second Examples.store default_limit).
  - apply (run_stamped empty_database Examples.chat); [| constructor].
    repeat (apply List.Forall_cons; [apply printable_at_second; lia |]).
    constructor.
  - reflexivity.
Defined.

(** ** The analytics table *)





Definition analytics_fields (r : analytics)
  : string * string * Z * option float * Z :=
  (a_timestamp r, a_model r, a_message_length r, a_response_time r,
   a_tokens_used r).

Lemma older_first_total (x y : analytics) :
  older_first x y = true \/ older_first y x = true.
Proof. unfold older_first. apply String.leb_total. Qed.

Lemma older_first_trans (x y z : analytics) :
  older_first x y = true -> older_first y z = true -> older_first x z = true.
Proof. unfold older_first. apply string_leb_trans. Qed.

(** [get_analytics_history] returns every row of the analytics table, once,
    without its rowid, in ascending order of the timestamps the callers
    passed (compared as text). *)
Theorem get_analytics_history_oldest_first (db : database) :
  exists sorted,
    get_analytics_history db = map analytics_fields sorted /\
    Permutation sorted (rows (analytics_messages db)) /\
    StronglySorted
      (fun x y => String.leb (a_timestamp x) (a_timestamp y) = true) sorted /\
    length (get_analytics_history db) = length (rows (analytics_messages db)).
Proof.
  exists (sort_by older_first (rows (analytics_messages db))).
  split; [reflexivity |].
  split; [apply sort_by_Permutation |].
  split; [apply (sort_by_sorted older_first older_first_total older_first_trans) |].
  unfold get_analytics_history. rewrite length_map. apply sort_by_length.
Qed.

(** * Further properties of the client *)

(** ** The entries of [get_models] *)

Lemma mapM_Exists_raises {A B : Type} (f : A -> result B) (l : list A) :
  Exists (fun a => exists e, f a = Raise e) l -> exists e, mapM f l = Raise e.
Proof.
  induction 1 as [a l [e He] | a l _ [e IH]]; simpl.
  - rewrite He. simpl. eauto.
  - destruct (f a); simpl; [rewrite IH; simpl |]; eauto.
Qed.

(** A model descriptor: a dict with the keys ['id'] and ['name'], in this
    order, and no other. *)
Definition is_model (m : pyvalue) : Prop :=
  exists id name, m = PDict [("id", id); ("name", name)].

Lemma model_entry_is_model (m e : pyvalue) : model_entry m = Ok e -> is_model e.
Proof.
  unfold model_entry. intros H.
  apply bind_Ok in H as (id & _ & H).
  apply bind_Ok in H as (name & _ & [= <-]).
  exists id, name. reflexivity.
Qed.

(** Whatever the provider answers, every element of the list [get_models]
    returns is a dict with exactly the keys ['id'] and ['name']: reading
    [m['id']] and [m['name']] of a returned model never raises. *)
Theorem get_models_entries net self (ms : list pyvalue) :
  get_models net self = Ok ms ->
  Forall is_model ms /\
  Forall (fun m => exists id name,
            py_getitem_str m "id" = Ok id /\ py_getitem_str m "name" = Ok name) ms.
Proof.
  intros H.
  assert (Hm : Forall is_model ms).
  { unfold get_models in H.
    destruct (fetch_models_cases net self)
      as [[_ [e He]] | (items & ms' & _ & Hmap & Hf)].
    - rewrite He in H. injection H as <-.
      repeat constructor; eexists; eexists; reflexivity.
    - rewrite Hf in H. injection H as <-.
      apply mapM_Forall2 in Hmap. clear Hf.
      induction Hmap as [| m e items ms' He _ IH]; [constructor |].
      constructor; [eapply model_entry_is_model; eauto | exact IH]. }
  split; [exact Hm |].
  eapply List.Forall_impl; [| exact Hm].
  intros m (id & name & ->). exists id, name. split; reflexivity.
Qed.

(** The theorem above at a provider that lists one model. *)
Lemma get_models_entries_example :
  Forall is_model [model "a/b" "B"].
Proof.
  apply (get_models_entries
           (Examples.answering 200 "OK"
              (Ok (PDict [("data", PList [PDict [("id", PStr "a/b");
                                                 ("name", PStr "B")]])])))
           Examples.client [model "a/b" "B"]).
  reflexivity.
Defined.

(** The provider's list is taken whole or not at all: when every item has an
    ['id'] and a ['name'], [get_models] returns their descriptors in the
    provider's order; when one item lacks either, or is not a dict, the whole
    list is dropped for the three fallback models. *)
Theorem get_models_all_or_nothing net self (items : list pyvalue) :
  models_listed net self items ->
  (forall ms, Forall2 (fun m e => model_entry m = Ok e) items ms ->
              get_models net self = Ok ms) /\
  (Exists (fun m => exists e, model_entry m = Raise e) items ->
   get_models net self = Ok fallback_models).
Proof.
  intros (resp & body & data & H1 & H2 & H3 & H4 & H5).
  assert (Hf : fetch_models net self = mapM model_entry items).
  { unfold fetch_models. rewrite H1; simpl. rewrite H2; simpl.
    rewrite H3; simpl. rewrite H4; simpl. rewrite H5. reflexivity. }
  unfold get_models. rewrite Hf. split.
  - intros ms Hms. apply mapM_Forall2 in Hms. rewrite Hms. reflexivity.
  - intros Hex. apply mapM_Exists_raises in Hex as [e ->]. reflexivity.
Qed.

(** The theorem above at a provider whose second model has no name. *)
Lemma get_models_all_or_nothing_example :
  get_models
    (Examples.answering 200 "OK"
       (Ok (PDict [("data", PList [PDict [("id", PStr "a/b"); ("name", PStr "B")];
                                   PDict [("id", PStr "c/d")]])])))
    Examples.client
  = Ok fallback_models.
Proof.
  refine (proj2 (get_models_all_or_nothing _ _
            [PDict [("id", PStr "a/b"); ("name", PStr "B")];
             PDict [("id", PStr "c/d")]] _) _).
  - eexists. eexists. eexists. repeat split; reflexivity.
  - apply Exists_cons_tl, Exists_cons_hd. eexists. reflexivity.
Defined.

(** ** [get_balance] on incomplete answers *)

Definition is_number (v : pyvalue) : bool :=
  match v with
  | PInt _ | PFloat _ | PBool _ => true
  | _ => false
  end.

Lemma py_sub_not_number (a b : pyvalue) :
  is_number a = false -> exists e, py_sub a b = Raise e.
Proof.
  destruct a; try discriminate; intros _; destruct b; simpl; eauto.
Qed.

(** What is missing from the answer of the credits endpoint counts as zero,
    what is present but unusable is a failure: without a ["data"] key, or
    with a ["data"] dict that has neither field, the balance is ["$0.00"];
    with a ["data"] that is not a dict ([null] included), or a
    [total_credits] that is not a number, the result is the failure string. *)
Theorem get_balance_missing_fields net self resp (d : list (string * pyvalue)) :
  credits_request net self = Ok resp ->
  ~ error_status resp ->
  json resp = Ok (PDict d) ->
  (dict_lookup "data" d = None -> get_balance net self = Ok "$0.00") /\
  (forall dd, dict_lookup "data" d = Some (PDict dd) ->
              dict_lookup "total_credits" dd = None ->
              dict_lookup "total_usage" dd = None ->
              get_balance net self = Ok "$0.00") /\
  (forall v, dict_lookup "data" d = Some v -> (forall dd, v <> PDict dd) ->
             get_balance net self = Ok balance_failure) /\
  (forall dd v, dict_lookup "data" d = Some (PDict dd) ->
                dict_lookup "total_credits" dd = Some v ->
                is_number v = false ->
                get_balance net self = Ok balance_failure).
Proof.
  intros Hreq Hst Hjs. unfold get_balance.
  rewrite (fetch_balance_body _ _ _ _ Hreq Hst Hjs).
  unfold balance_of_body, py_get.
  split; [| split; [| split]].
  - intros ->. vm_compute. reflexivity.
  - intros dd -> H1 H2. simpl. rewrite H1, H2. vm_compute. reflexivity.
  - intros v -> Hv. simpl.
    destruct v; try reflexivity. exfalso. eapply Hv. reflexivity.
  - intros dd v -> H1 Hv. simpl. rewrite H1. simpl.
    destruct (py_sub_not_number v (default (PInt 0) (dict_lookup "total_usage" dd)) Hv)
      as [e ->].
    reflexivity.
Qed.

(** The theorem above at a provider that answers [{}]. *)
Lemma get_balance_empty_answer :
  get_balance (Examples.answering 200 "OK" (Ok (PDict []))) Examples.client
  = Ok "$0.00".
Proof.
  refine (proj1 (get_balance_missing_fields
                   (Examples.answering 200 "OK" (Ok (PDict []))) Examples.client
                   _ [] eq_refl _ eq_refl) eq_refl).
  unfold error_status. simpl. lia.
Defined.

(** ** The client that construction returns *)

(** Construction does not depend on the provider: when [MAX_TOKENS] and
    [TEMPERATURE] convert and the credential is not empty, it returns a
    client whatever the provider answers, also when the listing of the models
    fails.  The client holds the credential, sends it as [Authorization:
    Bearer <credential>] with a JSON content type, and keeps as
    [available_models] what [get_models] returns for it: the fallback when
    the listing failed. *)
Theorem init_client repr env net (n : Z) (t : float) :
  resolved_max_tokens repr env = Ok n ->
  resolved_temperature repr env = Ok t ->
  resolved_api_key env <> "" ->
  exists self,
    init repr env net = Ok self /\
    api_key self = resolved_api_key env /\
    headers self !! "Authorization" = Some ("Bearer " +:+ api_key self) /\
    headers self !! "Content-Type" = Some "application/json" /\
    get_models net self = Ok (available_models self) /\
    (models_failure net self -> available_models self = fallback_models).
Proof.
  intros Hn Ht Hkey. rewrite init_unfold, Hn, Ht. simpl.
  apply String.eqb_neq in Hkey. rewrite Hkey.
  match goal with |- context [get_models net ?s] =>
    destruct (try_except_returns (fetch_models net s) (fun _ => fallback_models))
      as [models Hm]
  end.
  unfold get_models at 1. rewrite Hm. simpl.
  eexists. split; [reflexivity |]. cbn [api_key headers available_models].
  split; [reflexivity |].
  split; [apply lookup_insert_eq |].
  split; [rewrite lookup_insert_ne by discriminate; apply lookup_insert_eq |].
  split; [exact Hm |].
  intros Hfail.
  pose proof (models_failure_raises _ _ Hfail) as [e He].
  unfold get_models in Hm. unfold fetch_models in He, Hm.
  cbn [base_url headers] in He, Hm. rewrite He in Hm.
  injection Hm as <-. reflexivity.
Qed.

(** The theorem above in an empty environment, the provider unreachable. *)
Lemma init_client_example :
  exists self, init repr_str ∅ Examples.unreachable = Ok self /\
               available_models self = fallback_models /\
               headers self !! "Authorization" = Some "Bearer your-api-key-here".
Proof.
  destruct (init_client repr_str ∅ Examples.unreachable 1000 DEFAULT_TEMPERATURE)
    as (self & H & Hk & Ha & _ & _ & Hf).
  - vm_compute. reflexivity.
  - vm_compute. reflexivity.
  - discriminate.
  - exists self. split; [exact H |]. split.
    + apply Hf. eapply models_request_fails. reflexivity.
    + rewrite Ha, Hk. reflexivity.
Defined.

(** * Further properties of the handlers of [main.py] *)

(** ** What [send_message_click] makes of a response *)

(** A response with an ['error'] key is shown as an error, with no tokens,
    whatever else it holds: a body that carries both a reply and an
    ['error'] entry loses the reply. *)
Theorem send_message_click_error_key repr (d : list (string * pyvalue)) (v : pyvalue) :
  dict_lookup "error" d = Some v ->
  send_message_click_extract repr (PDict d)
  = Ok (PStr ("Ошибка: " +:+ py_str repr v), PInt 0).
Proof.
  intros H. unfold send_message_click_extract. simpl. rewrite H. simpl.
  reflexivity.
Qed.

(** The theorem above on a 200 body that holds a reply and an error. *)
Lemma send_message_click_error_key_example :
  send_message_click_extract (fun _ => "")
    (PDict [ ("choices", PList [PDict [("message", PDict [("content", PStr "hi")])]]);
             ("error", PStr "rate limited") ])
  = Ok (PStr "Ошибка: rate limited", PInt 0).
Proof.
  apply (send_message_click_error_key (fun _ => "")
           [ ("choices", PList [PDict [("message", PDict [("content", PStr "hi")])]]);
             ("error", PStr "rate limited") ] (PStr "rate limited")).
  reflexivity.
Defined.

(** When the request of [send_message] fails in any way, the handler gets
    the text ["Ошибка: "] followed by [str(e)] and a token count of 0, and
    reading the response raises nothing. *)
Theorem send_message_click_shows_failure repr net self message model e :
  post_message net self message model = Raise e ->
  (send_message net self message model ≫= send_message_click_extract repr)
  = Ok (PStr ("Ошибка: " +:+ exn_str e), PInt 0).
Proof.
  intros H. unfold send_message. rewrite H. reflexivity.
Qed.

(** The theorem above at an unreachable provider. *)
Lemma send_message_click_shows_failure_example :
  (send_message Examples.unreachable Examples.client "hello" "gpt-3.5-turbo"
     ≫= send_message_click_extract (fun _ => ""))
  = Ok (PStr "Ошибка: Connection refused", PInt 0).
Proof.
  apply (send_message_click_shows_failure (fun _ => "") Examples.unreachable
           Examples.client "hello" "gpt-3.5-turbo"
           (Exn RequestException "Connection refused")).
  reflexivity.
Defined.

(** For a dict response without an ['error'] key whose
    [choices[0].message.content] exists, the handler reads that content; the
    token count is [usage.total_tokens], and 0 when the response has no
    ['usage'] or the usage has no ['total_tokens'].  A ['usage'] that is not
    a dict ([null] included) makes the reading raise [AttributeError], and
    the reply is lost. *)
Theorem send_message_click_reads_usage repr (d first msg : list (string * pyvalue))
    (rest : list pyvalue) (content : pyvalue) :
  dict_lookup "error" d = None ->
  dict_lookup "choices" d = Some (PList (PDict first :: rest)) ->
  dict_lookup "message" first = Some (PDict msg) ->
  dict_lookup "content" msg = Some content ->
  (dict_lookup "usage" d = None ->
   send_message_click_extract repr (PDict d) = Ok (content, PInt 0)) /\
  (forall u, dict_lookup "usage" d = Some (PDict u) ->
     send_message_click_extract repr (PDict d)
     = Ok (content, default (PInt 0) (dict_lookup "total_tokens" u))) /\
  (forall v, dict_lookup "usage" d = Some v -> (forall u, v <> PDict u) ->
     exists e, send_message_click_extract repr (PDict d) = Raise e /\
               exn_class e = AttributeError).
Proof.
  intros He Hc Hm Hcontent.
  unfold send_message_click_extract. simpl. rewrite He. simpl.
  rewrite Hc. simpl. rewrite Hm. simpl. rewrite Hcontent. simpl.
  split; [| split].
  - intros ->. reflexivity.
  - intros u ->. reflexivity.
  - intros v -> Hv. simpl.
    destruct v; simpl; try (eexists; split; reflexivity).
    exfalso. eapply Hv. reflexivity.
Qed.

(** The theorem above on a reply without usage. *)
Lemma send_message_click_reads_usage_example :
  send_message_click_extract (fun _ => "")
    (PDict [("choices", PList [PDict [("message", PDict [("content", PStr "hi")])]])])
  = Ok (PStr "hi", PInt 0).
Proof.
  refine (proj1 (send_message_click_reads_usage (fun _ => "")
                   [("choices", PList [PDict [("message", PDict [("content", PStr "hi")])]])]
                   [("message", PDict [("content", PStr "hi")])]
                   [("content", PStr "hi")] [] (PStr "hi")
                   eq_refl eq_refl eq_refl eq_refl) eq_refl).
Defined.

(** A dict response with neither an ['error'] nor a ['choices'] key makes the
    reading raise [KeyError], and one with an empty ['choices'] list
    [IndexError]: the handler then leaves its [try] block before anything is
    saved. *)
Theorem send_message_click_without_choices repr (d : list (string * pyvalue)) :
  dict_lookup "error" d = None ->
  (dict_lookup "choices" d = None ->
   send_message_click_extract repr (PDict d) = Raise (Exn KeyError "'choices'")) /\
  (dict_lookup "choices" d = Some (PList []) ->
   send_message_click_extract repr (PDict d)
   = Raise (Exn IndexError "list index out of range")).
Proof.
  intros He. unfold send_message_click_extract. simpl. rewrite He. simpl.
  split; intros ->; reflexivity.
Qed.

(** The theorem above on the empty answer [{}]. *)
Lemma send_message_click_without_choices_example :
  send_message_click_extract (fun _ => "") (PDict [])
  = Raise (Exn KeyError "'choices'").
Proof.
  apply (send_message_click_without_choices (fun _ => "") [] eq_refl).
  reflexivity.
Defined.

(** ** The balance line *)

(** [update_balance] never reaches its [except] branch: [get_balance]
    catches every failure itself, so the balance line is always green and
    never the placeholder; after a failed request it reads ["Баланс:
    Ошибка"], in green. *)
Theorem update_balance_always_green (net : network) (api_client : OpenRouterClient) :
  Ui.text_color (Ui.update_balance net api_client) = Ui.GREEN_400 /\
  Ui.value (Ui.update_balance net api_client) <> "Баланс: н/д" /\
  (exists balance, get_balance net api_client = Ok balance /\
     Ui.value (Ui.update_balance net api_client) = "Баланс: " +:+ balance) /\
  (credits_failure net api_client ->
   Ui.update_balance net api_client
   = {| Ui.value := "Баланс: Ошибка"; Ui.text_color := Ui.GREEN_400 |}).
Proof.
  unfold Ui.update_balance.
  destruct (try_except_returns (fetch_balance net api_client)
              (fun _ => balance_failure)) as [balance Hb].
  fold (get_balance net api_client) in Hb. rewrite Hb. simpl.
  split; [reflexivity |].
  split.
  { unfold get_balance in Hb.
    destruct (fetch_balance net api_client) as [s | e] eqn:Hf; simpl in Hb;
      injection Hb as <-.
    - unfold fetch_balance in Hf.
      repeat (apply bind_Ok in Hf as (? & _ & Hf)).
      injection Hf as <-. discriminate.
    - discriminate. }
  split; [exists balance; auto |].
  intros Hfail. apply credits_failure_raises in Hfail as [e He].
  unfold get_balance in Hb. rewrite He in Hb. injection Hb as <-. reflexivity.
Qed.

(** ** The displayed history and the export *)

Lemma fold_left_exchange (l : list message) (controls : list Ui.control) :
  fold_left (fun shown msg => (shown ++ Ui.exchange msg)%list) l controls
  = (controls ++ flat_map Ui.exchange l)%list.
Proof.
  revert controls. induction l as [| msg l IH]; intros controls; simpl.
  - rewrite app_nil_r. reflexivity.
  - rewrite IH, <- app_assoc. reflexivity.
Qed.

Lemma flat_map_exchange_length (l : list message) :
  length (flat_map Ui.exchange l) = (2 * length l)%nat.
Proof. induction l as [| msg l IH]; simpl; [reflexivity | rewrite IH; lia]. Qed.

Lemma StronglySorted_rev {A : Type} (R : A -> A -> Prop) (l : list A) :
  StronglySorted R l -> StronglySorted (fun x y => R y x) (rev l).
Proof.
  induction 1 as [| x l Hs IH Hx]; simpl; [constructor |].
  assert (H : forall l', StronglySorted (fun a b => R b a) l' ->
                Forall (fun y => R x y) l' ->
                StronglySorted (fun a b => R b a) (l' ++ [x])%list).
  { induction 1 as [| y l' Hs' IH' Hy]; intros Hall; simpl.
    - repeat constructor.
    - apply List.Forall_cons_iff in Hall as [Hxy Hall].
      constructor; [apply IH'; exact Hall |].
      apply Forall_app. split; [exact Hy | repeat constructor; exact Hxy]. }
  apply H; [exact IH |].
  apply List.Forall_forall. intros y Hy.
  rewrite List.Forall_forall in Hx. apply Hx, in_rev, Hy.
Qed.

(** [load_chat_history] appends to the chat list the exchanges of the newest
    50 stored rows at most, oldest first: for each a user bubble immediately
    followed by the bubble of the reply, in ascending order of timestamps.
    The reading of the history does not raise. *)
Theorem load_chat_history_oldest_first (db : database) (controls : list Ui.control) :
  exists shown history,
    get_chat_history db default_limit = Ok history /\
    shown = rev history /\
    Ui.load_chat_history db controls
    = (controls ++ flat_map Ui.exchange shown)%list /\
    Permutation shown history /\
    StronglySorted
      (fun x y => String.leb (m_timestamp x) (m_timestamp y) = true) shown /\
    length shown = Nat.min 50 (length (rows (messages db))) /\
    length (Ui.load_chat_history db controls)
    = (length controls + 2 * length shown)%nat.
Proof.
  exists (rev (select_messages db default_limit)),
         (select_messages db default_limit).
  assert (Hload : Ui.load_chat_history db controls
                  = (controls ++ flat_map Ui.exchange
                                   (rev (select_messages db default_limit)))%list).
  { unfold Ui.load_chat_history. rewrite get_chat_history_default.
    apply fold_left_exchange. }
  split; [reflexivity |]. split; [reflexivity |].
  split; [exact Hload |].
  split; [symmetry; apply Permutation_rev |].
  split.
  { apply (StronglySorted_rev
             (fun x y => String.leb (m_timestamp y) (m_timestamp x) = true)).
    apply select_messages_newest_first. }
  split.
  { rewrite length_rev. unfold select_messages, sql_limit, default_limit. simpl.
    rewrite length_firstn, sort_by_length. reflexivity. }
  rewrite Hload, length_app, flat_map_exchange_length. reflexivity.
Qed.

(** What an exported entry keeps of a row: everything but the rowid. *)
Definition same_exchange (x y : message) : Prop :=
  m_model x = m_model y /\ m_user_message x = m_user_message y /\
  m_ai_response x = m_ai_response y /\ m_timestamp x = m_timestamp y /\
  m_tokens_used x = m_tokens_used y.

(** [save_dialog] exports the newest stored exchanges, 50 at most, newest
    first, one entry per row: the rows of the table put in descending order
    of their timestamps, the first 50 of them are exported and no row left
    out has a greater timestamp than an exported one.  The reading of the
    history does not raise, and an entry determines every column of its row
    except the rowid. *)
Theorem dialog_data_newest (db : database) :
  (exists sorted,
     Permutation sorted (rows (messages db)) /\
     newest_first sorted /\
     get_chat_history db default_limit = Ok (firstn 50 sorted) /\
     Ui.dialog_data db = Ok (map Ui.export_entry (firstn 50 sorted)) /\
     length (firstn 50 sorted) = Nat.min 50 (length (rows (messages db))) /\
     forall x y, In x (firstn 50 sorted) -> In y (skipn 50 sorted) ->
                 String.leb (m_timestamp y) (m_timestamp x) = true) /\
  (forall x y, Ui.export_entry x = Ui.export_entry y <-> same_exchange x y).
Proof.
  split.
  { exists (sort_by newer_first (rows (messages db))).
    split; [apply sort_by_Permutation |].
    split; [apply ordered_messages_newest_first |].
    split; [reflexivity |].
    split; [reflexivity |].
    split; [rewrite length_firstn, sort_by_length; reflexivity |].
    apply (StronglySorted_split _ _ _ (ordered_messages_newest_first _)). }
  intros x y. unfold Ui.export_entry, same_exchange. split.
  - intros [= H1 H2 H3 H4 H5]. auto.
  - intros (H1 & H2 & H3 & H4 & H5). rewrite H1, H2, H3, H4, H5. reflexivity.
Qed.

(** A clock reading with a year of four digits. *)
Definition four_digit_year (d : datetime) : Prop :=
  printable d /\ 1000 <= year d.

Lemma export_filename_compare (a b : datetime) :
  printable a -> printable b ->
  String.compare (Ui.export_filename a) (Ui.export_filename b)
  = (instant a ?= instant b).
Proof.
  intros (Hy1 & Hm1 & Hd1 & Hh1 & Hi1 & Hs1) (Hy2 & Hm2 & Hd2 & Hh2 & Hi2 & Hs2).
  unfold Ui.export_filename, instant.
  change ("chat_history_" +:+ ?s)
    with (String "c" (String "h" (String "a" (String "t" (String "_"
           (String "h" (String "i" (String "s" (String "t" (String "o"
           (String "r" (String "y" (String "_" s))))))))))))).
  rewrite !separator_compare.
  rewrite pad4_compare by assumption.
  rewrite pad2_compare by assumption.
  rewrite pad2_compare by assumption.
  change ("_" +:+ ?s) with (String "_" s). rewrite separator_compare.
  rewrite pad2_compare by assumption.
  rewrite pad2_compare by assumption.
  rewrite pad2_compare by assumption.
  rewrite string_compare_refl.
  rewrite (lexicographic_base 100 (year a) (month a)) by lia.
  rewrite (lexicographic_base 100 _ (day a)) by lia.
  rewrite (lexicographic_base 100 _ (hour a)) by lia.
  rewrite (lexicographic_base 100 _ (minute a)) by lia.
  rewrite (lexicographic_base 100 _ (second a)) by lia.
  unfold lexicographic. destruct (_ ?= _); reflexivity.
Qed.

(** Two exports get the same file name exactly when they are made within the
    same second: the later one then writes over the earlier one, and exports
    made at different seconds never share a file. *)
Theorem export_filename_same_second (a b : datetime) :
  four_digit_year a -> four_digit_year b ->
  (Ui.export_filename a = Ui.export_filename b <-> a = b).
Proof.
  intros [Ha _] [Hb _]. split; [| intros ->; reflexivity].
  intros Heq.
  pose proof (export_filename_compare a b Ha Hb) as Hcmp.
  rewrite Heq, string_compare_refl in Hcmp.
  symmetry in Hcmp. apply Z.compare_eq in Hcmp.
  destruct Ha as (Hy1 & Hm1 & Hd1 & Hh1 & Hi1 & Hs1).
  destruct Hb as (Hy2 & Hm2 & Hd2 & Hh2 & Hi2 & Hs2).
  unfold instant in Hcmp.
  destruct a as [y1 m1 d1 h1 i1 s1], b as [y2 m2 d2 h2 i2 s2]. simpl in *.
  assert (Hdigit : forall hi1 lo1 hi2 lo2,
             0 <= lo1 <= 99 -> 0 <= lo2 <= 99 ->
             hi1 * 100 + lo1 = hi2 * 100 + lo2 -> hi1 = hi2 /\ lo1 = lo2)
    by (intros; lia).
  apply Hdigit in Hcmp as [Hcmp ->]; [| assumption ..].
  apply Hdigit in Hcmp as [Hcmp ->]; [| assumption ..].
  apply Hdigit in Hcmp as [Hcmp ->]; [| assumption ..].
  apply Hdigit in Hcmp as [Hcmp ->]; [| assumption ..].
  apply Hdigit in Hcmp as [-> ->]; [| assumption ..].
  reflexivity.
Qed.

(** The theorem above for two exports one second apart. *)
Lemma export_filename_one_second_apart :
  Ui.export_filename (Examples.at_second 4) = Ui.export_filename (Examples.at_second 5)
  <-> Examples.at_second 4 = Examples.at_second 5.
Proof.
  apply (export_filename_same_second (Examples.at_second 4) (Examples.at_second 5)).
  - split; [apply printable_at_second |]; simpl; lia.
  - split; [apply printable_at_second |]; simpl; lia.
Defined.

(** * The connection of each thread *)

(** No connection is closed before it is opened. *)
Definition connections_ok (w : Connection.connections) : Prop :=
  forall n, In n (Connection.closed w) -> (n < Connection.opened w)%nat.

(** The invariant of the [conn] attributes: each was opened on the file of
    the object, is still open, and belongs to one thread only. *)
Definition local_ok (self : Connection.ChatCache) (w : Connection.connections)
  : Prop :=
  connections_ok w /\
  forall t c, Connection.local self !! t = Some c ->
    (Connection.serial c < Connection.opened w)%nat /\
    Connection.path c = Connection.db_path self /\
    ~ In (Connection.serial c) (Connection.closed w) /\
    forall t' c', Connection.local self !! t' = Some c' ->
                  Connection.serial c = Connection.serial c' -> t = t'.

Lemma ChatCache_init_ok (p : string) (w : Connection.connections) :
  connections_ok w ->
  local_ok (fst (Connection.ChatCache_init p w)) (snd (Connection.ChatCache_init p w)).
Proof.
  intros Hw. split.
  - intros n [<- | Hn]; simpl; [lia |]. specialize (Hw n Hn). lia.
  - intros t c H. simpl in H. rewrite lookup_empty in H. discriminate.
Qed.

Lemma get_connection_ok (thread : nat) self w c self' w' :
  Connection.get_connection thread self w = (c, self', w') ->
  local_ok self w ->
  local_ok self' w' /\
  Connection.local self' !! thread = Some c /\
  Connection.db_path self' = Connection.db_path self /\
  Connection.closed w' = Connection.closed w /\
  (forall t c0, Connection.local self !! t = Some c0 ->
                Connection.local self' !! t = Some c0).
Proof.
  unfold Connection.get_connection. intros H [Hw Hl].
  destruct (Connection.local self !! thread) as [c0 |] eqn:Hc0.
  - injection H as <- <- <-.
    split; [split; assumption |]. repeat split; auto.
  - simpl in H. injection H as <- <- <-. simpl.
    split; [split |].
    + intros n Hn. simpl in *. specialize (Hw n Hn). lia.
    + intros t c. simpl. rewrite lookup_insert.
      destruct (decide (thread = t)) as [<- | Hne].
      * intros [= <-]. simpl. split; [lia |]. split; [reflexivity |].
        split; [intros Hin; specialize (Hw _ Hin); lia |].
        intros t' c'. rewrite lookup_insert.
        destruct (decide (thread = t')) as [<- | Hne']; [reflexivity |].
        intros Hc' Hs. destruct (Hl t' c' Hc') as (Hlt & _). simpl in Hs. lia.
      * intros Hc. destruct (Hl t c Hc) as (Hlt & Hp & Hcl & Hinj).
        split; [lia |]. split; [exact Hp |]. split; [exact Hcl |].
        intros t' c'. rewrite lookup_insert.
        destruct (decide (thread = t')) as [<- | Hne'].
        -- intros [= <-] Hs. simpl in Hs. lia.
        -- intros Hc' Hs. eapply Hinj; eauto.
    + split; [apply lookup_insert_eq |].
      split; [reflexivity |]. split; [reflexivity |].
      intros t c0 Ht. rewrite lookup_insert_ne; [exact Ht |].
      intros <-. rewrite Hc0 in Ht. discriminate.
Qed.

Lemma get_connections_ok (threads : list nat) self w served self' w' :
  Connection.get_connections threads self w = (served, self', w') ->
  local_ok self w ->
  local_ok self' w' /\
  Connection.db_path self' = Connection.db_path self /\
  Connection.closed w' = Connection.closed w /\
  (forall t c0, Connection.local self !! t = Some c0 ->
                Connection.local self' !! t = Some c0) /\
  (forall t c, In (t, c) served -> Connection.local self' !! t = Some c).
Proof.
  revert self w served self' w'.
  induction threads as [| t threads IH]; intros self w served self' w' H Hok.
  - injection H as <- <- <-.
    split; [exact Hok |]. split; [reflexivity |]. split; [reflexivity |].
    split; [auto |]. intros t c [].
  - cbn [Connection.get_connections] in H.
    destruct (Connection.get_connection t self w) as [[c self1] w1] eqn:H1.
    destruct (Connection.get_connections threads self1 w1)
      as [[served2 self2] w2] eqn:H2.
    injection H as <- <- <-.
    destruct (get_connection_ok _ _ _ _ _ _ H1 Hok) as (Hok1 & Hc & Hp1 & Hcl1 & Hkeep1).
    destruct (IH _ _ _ _ _ H2 Hok1) as (Hok2 & Hp2 & Hcl2 & Hkeep2 & Hserved).
    split; [exact Hok2 |]. split; [congruence |]. split; [congruence |].
    split; [auto |].
    intros t' c' [[= <- <-] | Hin]; auto.
Qed.

(** Threads get connections of their own: in every sequence of
    [get_connection] calls on a new [ChatCache], two calls return the same
    connection exactly when they are made by the same thread, and every
    connection returned is on the file of the object and still open. *)
Theorem get_connection_per_thread (p : string) (w0 : Connection.connections)
    (threads : list nat) served self w :
  connections_ok w0 ->
  Connection.get_connections threads
    (fst (Connection.ChatCache_init p w0)) (snd (Connection.ChatCache_init p w0))
  = (served, self, w) ->
  (forall t1 c1 t2 c2, In (t1, c1) served -> In (t2, c2) served ->
                       (t1 = t2 <-> c1 = c2)) /\
  (forall t c, In (t, c) served ->
               Connection.path c = p /\
               ~ In (Connection.serial c) (Connection.closed w)).
Proof.
  intros Hw0 Hrun.
  destruct (get_connections_ok _ _ _ _ _ _ Hrun (ChatCache_init_ok p w0 Hw0))
    as ([_ Hl] & Hp & _ & _ & Hserved).
  split.
  - intros t1 c1 t2 c2 H1 H2.
    apply Hserved in H1, H2. split.
    + intros <-. congruence.
    + intros <-. destruct (Hl t1 c1 H1) as (_ & _ & _ & Hinj).
      eapply Hinj; eauto.
  - intros t c H. apply Hserved in H.
    destruct (Hl t c H) as (_ & Hpath & Hopen & _).
    split; [rewrite Hpath, Hp; reflexivity | exact Hopen].
Qed.

Definition fresh_process : Connection.connections :=
  {| Connection.opened := 0; Connection.closed := [] |}.

(** The theorem above for the calls of threads 7, 3, 7 in a fresh process. *)
Lemma get_connection_per_thread_example :
  map (fun served => Connection.serial (snd served))
      (fst (fst (Connection.get_connections [7; 3; 7]%nat
                   (fst (Connection.ChatCache_init "chat_cache.db" fresh_process))
                   (snd (Connection.ChatCache_init "chat_cache.db" fresh_process)))))
  = [1; 2; 1]%nat
  /\ forall t c,
       In (t, c)
          (fst (fst (Connection.get_connections [7; 3; 7]%nat
                   (fst (Connection.ChatCache_init "chat_cache.db" fresh_process))
                   (snd (Connection.ChatCache_init "chat_cache.db" fresh_process)))))
       -> Connection.path c = "chat_cache.db".
Proof.
  split; [reflexivity |].
  intros t c H.
  eapply (get_connection_per_thread "chat_cache.db" fresh_process [7; 3; 7]%nat).
  - intros n [].
  - reflexivity.
  - exact H.
Defined.

(** [__del__] closes the connection of the thread it runs in and no other:
    after it, a connection handed out by [get_connection] is closed exactly
    when it is the one of that thread, so the connections of all other
    threads are left open. *)
Theorem ChatCache_del_closes_own (p : string) (w0 : Connection.connections)
    (threads : list nat) served self w (thread : nat) :
  connections_ok w0 ->
  Connection.get_connections threads
    (fst (Connection.ChatCache_init p w0)) (snd (Connection.ChatCache_init p w0))
  = (served, self, w) ->
  forall t c, In (t, c) served ->
    (In (Connection.serial c)
        (Connection.closed (Connection.ChatCache_del thread self w))
     <-> t = thread).
Proof.
  intros Hw0 Hrun t c Hin.
  destruct (get_connections_ok _ _ _ _ _ _ Hrun (ChatCache_init_ok p w0 Hw0))
    as ([_ Hl] & _ & _ & _ & Hserved).
  apply Hserved in Hin.
  destruct (Hl t c Hin) as (_ & _ & Hopen & Hinj).
  unfold Connection.ChatCache_del.
  destruct (Connection.local self !! thread) as [c' |] eqn:Hc'; simpl.
  - split.
    + intros [Heq | Hcl]; [| contradiction].
      eapply Hinj; eauto.
    + intros ->. left. congruence.
  - split; [contradiction |]. intros ->. congruence.
Qed.

(** The theorem above: after the calls of threads 7 and 3, [__del__] in
    thread 7 closes the connection of thread 7 and leaves that of thread 3
    open. *)
Lemma ChatCache_del_closes_own_example :
  Forall (fun served =>
            In (Connection.serial (snd served))
               (Connection.closed
                  (Connection.ChatCache_del 7
                     (snd (fst (Connection.get_connections [7; 3]%nat
                        (fst (Connection.ChatCache_init "chat_cache.db" fresh_process))
                        (snd (Connection.ChatCache_init "chat_cache.db" fresh_process)))))
                     (snd (Connection.get_connections [7; 3]%nat
                        (fst (Connection.ChatCache_init "chat_cache.db" fresh_process))
                        (snd (Connection.ChatCache_init "chat_cache.db" fresh_process))))))
            <-> fst served = 7%nat)
         (fst (fst (Connection.get_connections [7; 3]%nat
            (fst (Connection.ChatCache_init "chat_cache.db" fresh_process))
            (snd (Connection.ChatCache_init "chat_cache.db" fresh_process))))).
Proof.
  apply List.Forall_forall. intros [t c] Hin.
  exact (ChatCache_del_closes_own "chat_cache.db" fresh_process [7; 3]%nat
           _ _ _ 7%nat ltac:(intros n []) eq_refl t c Hin).
Defined.

(** * Integer settings *)

(** ** [int(str(n))] *)

Fixpoint no_space (s : string) : bool :=
  match s with
  | EmptyString => true
  | String c s' => negb (is_space c) && no_space s'
  end.

Lemma lstrip_no_space (s : string) : no_space s = true -> lstrip s = s.
Proof.
  destruct s as [| c s]; [reflexivity |]. simpl.
  destruct (is_space c); [discriminate | reflexivity].
Qed.

Lemma string_rev_app_no_space (s acc : string) :
  no_space s = true -> no_space acc = true ->
  no_space (string_rev_app s acc) = true.
Proof.
  revert acc. induction s as [| c s IH]; intros acc Hs Hacc; [exact Hacc |].
  simpl in *. apply andb_prop in Hs as [Hc Hs].
  apply IH; [exact Hs |]. simpl. rewrite Hc, Hacc. reflexivity.
Qed.

Lemma string_rev_app_twice (s a b : string) :
  string_rev_app (string_rev_app s a) b = string_rev_app a (s +:+ b).
Proof.
  revert a. induction s as [| c s IH]; intros a; [reflexivity |].
  cbn [string_rev_app]. rewrite IH. reflexivity.
Qed.

Lemma strip_no_space (s : string) : no_space s = true -> strip s = s.
Proof.
  intros Hs. unfold strip, string_rev.
  rewrite (lstrip_no_space s Hs).
  rewrite lstrip_no_space by (apply string_rev_app_no_space; auto).
  rewrite string_rev_app_twice. cbn [string_rev_app].
  apply string_app_nil_r.
Qed.













(** * Rowids and the sequence *)

(** The invariant of the two AUTOINCREMENT tables holds in a new database
    and after every history of the store: in each table the rowids increase
    along the rows, so no two rows share one, and none exceeds the recorded
    sequence; the sequence of each table never decreases and stays within
    the 64-bit range. *)
Theorem store_invariant (history : list (datetime * command)) :
  well_formed (create_tables None) /\
  (forall db, well_formed db ->
     well_formed (fst (run db history)) /\
     NoDup (map m_id (rows (messages (fst (run db history))))) /\
     NoDup (map a_id (rows (analytics_messages (fst (run db history))))) /\
     sequence (messages db) <= sequence (messages (fst (run db history)))
     <= MAX_ROWID /\
     sequence (analytics_messages db)
     <= sequence (analytics_messages (fst (run db history))) <= MAX_ROWID).
Proof.
  split; [exact well_formed_empty |].
  intros db Hwf.
  pose proof (run_well_formed db history Hwf) as Hwf'.
  split; [exact Hwf' |].
  destruct Hwf' as [(Hsm & _ & Hseqm) (Hsa & _ & Hseqa)].
  destruct (run_sequences db history) as [Hm Ha].
  split; [apply StronglySorted_lt_NoDup; exact Hsm |].
  split; [apply StronglySorted_lt_NoDup; exact Hsa |].
  split; lia.
Qed.



(** Rowids count the insertions: while rowids are left, the messages saved
    along a history get the rowids that follow the sequence recorded at its
    start, one by one, in the order of the calls; [clear_history], the
    analytics writes and the calls the driver refuses in between do not reset
    or skip any.  From a new database they are 1, 2, 3, ... *)
Theorem rowids_count_insertions (db : database)
    (history : list (datetime * command)) :
  well_formed db ->
  sequence (messages db)
    + Z.of_nat (length (List.filter is_saved history)) <= MAX_ROWID ->
  map m_id (snd (run db history))
  = map (fun k => sequence (messages db) + Z.of_nat k)
        (seq 1 (length (List.filter is_saved history))) /\
  length (snd (run db history)) = length (List.filter is_saved history).
Proof.
  intros Hwf Hroom.
  destruct (run_writes_saved db history Hwf Hroom) as [Hall Hids].
  split; [exact Hids |].
  symmetry. eapply Forall2_length. exact Hall.
Qed.

(** The theorem above: clearing, or a refused call, between two saves does
    not restart the rowids or use one. *)
Lemma rowids_count_insertions_example :
  map m_id
    (snd (run empty_database
            [ (Examples.at_second 1, SaveMessage "m" "first" "a" 1);
              (Examples.at_second 2, ClearHistory);
              (Examples.at_second 2, SaveMessage "m" "refused" "a" (2 ^ 63));
              (Examples.at_second 3, SaveMessage "m" "second" "b" 1) ]))
  = [1; 2].
Proof.
  apply (rowids_count_insertions empty_database
           [ (Examples.at_second 1, SaveMessage "m" "first" "a" 1);
             (Examples.at_second 2, ClearHistory);
             (Examples.at_second 2, SaveMessage "m" "refused" "a" (2 ^ 63));
             (Examples.at_second 3, SaveMessage "m" "second" "b" 1) ]
           well_formed_empty).
  vm_compute. discriminate.
Defined.

(** * The shapes of ["data"] in the answer of the models endpoint *)

Definition is_scalar (v : pyvalue) : bool :=
  match v with
  | PNone | PBool _ | PInt _ | PFloat _ => true
  | _ => false
  end.

Lemma fetch_models_body net self resp body :
  get net (base_url self +:+ "/models") (headers self) = Ok resp ->
  ~ error_status resp ->
  json resp = Ok body ->
  fetch_models net self = models_of_body body.
Proof.
  unfold fetch_models. intros -> Hst Hjs. simpl.
  rewrite (raise_for_status_pass _ Hst). simpl. rewrite Hjs. reflexivity.
Qed.

Lemma chars_cons (c : ascii) (s : string) :
  exists x l, chars (String c s) = x :: l.
Proof.
  cbn [chars]. destruct s as [| c' s]; [eauto |].
  destruct (continuation c'), (chars (String c' s)); eauto.
Qed.

(** An accepted answer without a ["data"] key, or with an empty list, string
    or dict under it, gives the empty list of models; a ["data"] that is
    [null], a boolean or a number, or a non-empty string or dict, gives the
    fallback: only a list can name models, and it gives the entries of its
    items, or the fallback when one of them has none. *)
Theorem get_models_data_shape net self resp (d : list (string * pyvalue)) :
  get net (base_url self +:+ "/models") (headers self) = Ok resp ->
  ~ error_status resp ->
  json resp = Ok (PDict d) ->
  (dict_lookup "data" d = None -> get_models net self = Ok []) /\
  (dict_lookup "data" d = Some (PList []) -> get_models net self = Ok []) /\
  (forall items, dict_lookup "data" d = Some (PList items) ->
                 get_models net self
                 = match mapM model_entry items with
                   | Ok ms => Ok ms
                   | Raise _ => Ok fallback_models
                   end) /\
  (forall v, dict_lookup "data" d = Some v -> is_scalar v = true ->
             get_models net self = Ok fallback_models) /\
  (forall s, dict_lookup "data" d = Some (PStr s) ->
             get_models net self
             = Ok (if String.eqb s "" then [] else fallback_models)) /\
  (forall dd, dict_lookup "data" d = Some (PDict dd) ->
              get_models net self
              = Ok (match dd with [] => [] | _ => fallback_models end)).
Proof.
  intros Hreq Hst Hjs. unfold get_models.
  rewrite (fetch_models_body _ _ _ _ Hreq Hst Hjs).
  unfold models_of_body, py_get.
  split; [| split; [| split; [| split; [| split]]]].
  - intros ->. reflexivity.
  - intros ->. reflexivity.
  - intros items ->. simpl. destruct (mapM model_entry items); reflexivity.
  - intros v -> Hv. destruct v; try discriminate; reflexivity.
  - intros s ->. destruct s as [| c s]; [reflexivity |].
    change (try_except
              (mapM model_entry (map PStr (chars (String c s))))
              (fun _ => Ok fallback_models)
            = Ok fallback_models).
    destruct (chars_cons c s) as (x & l & ->). reflexivity.
  - intros dd ->. destruct dd as [| [k v] dd]; reflexivity.
Qed.

(** The theorem above at a provider that answers [{"data": null}]. *)
Lemma get_models_data_null :
  get_models (Examples.answering 200 "OK" (Ok (PDict [("data", PNone)])))
    Examples.client
  = Ok fallback_models.
Proof.
  refine (proj1 (proj2 (proj2 (proj2 (get_models_data_shape
            (Examples.answering 200 "OK" (Ok (PDict [("data", PNone)])))
            Examples.client _ [("data", PNone)] eq_refl _ eq_refl))))
            PNone eq_refl eq_refl).
  unfold error_status. simpl. lia.
Defined.
